(** * AuthController: registration by OTP envelope, login and logout

    A shallow embedding of the request handlers of [AuthController]
    ([sendOtp], [verifyOtp], [self], [logout], [login]) and of the JavaScript
    primitives they use (template literals, [String.prototype.split], unary
    [+] on a string, [Date.now]).

    The services the controller is constructed with ([UserService],
    [CredentialService], [TokenService]) are collaborators whose code is not
    part of the controller: they are an interface ([Services]) over an
    abstract store, and every theorem holds for all of its implementations.
    An in-memory implementation ([Memory]) is used to run the handlers on
    concrete requests. *)

From Stdlib Require Import String Ascii List Bool ZArith QArith Lia.
From Stdlib Require Import Decimal DecimalString DecimalPos DecimalZ.
Import ListNotations.

Local Open Scope string_scope.
Local Open Scope Z_scope.

(* ================================================================== *)
(** ** JavaScript strings *)

(** [s.split(sep)] for a one-character separator: the fields between the
    separators, in order; a string without separator is its own only field
    (so [split] never returns the empty list). *)
Fixpoint split (sep : ascii) (s : string) : list string :=
  match s with
  | EmptyString => [EmptyString]
  | String c s' =>
      if Ascii.eqb c sep then EmptyString :: split sep s'
      else match split sep s' with
           | [] => [String c EmptyString]
           | f :: fs => String c f :: fs
           end
  end.

(** [fields.join(sep)], the inverse of [split]. *)
Fixpoint join (sep : ascii) (fields : list string) : string :=
  match fields with
  | [] => EmptyString
  | [f] => f
  | f :: fs => f ++ String sep (join sep fs)
  end.

(** Number of occurrences of a character. *)
Fixpoint occurrences (c : ascii) (s : string) : nat :=
  match s with
  | EmptyString => O
  | String a s' => (if Ascii.eqb a c then 1 else 0) + occurrences c s'
  end.

Definition hash_sign : ascii := "#"%char.

(* ================================================================== *)
(** ** JavaScript numbers

    Only two things happen to numbers in the controller: a string is coerced
    to a number ([+expires], [Number(tokenId)]) and compared with the clock,
    and an integer (the expiry time, a record id) is interpolated into a
    string.  Every finite double is a rational, so [Finite] holds all of
    them exactly. *)
Inductive JSNumber : Type :=
  | NaN
  | PosInfinity
  | NegInfinity
  | Finite (q : Q).

Definition of_Z (z : Z) : JSNumber := Finite (inject_Z z).

(** [a > b] on numbers: false as soon as one side is [NaN]. *)
Definition js_gt (a b : JSNumber) : bool :=
  match a, b with
  | NaN, _ => false
  | _, NaN => false
  | PosInfinity, PosInfinity => false
  | PosInfinity, _ => true
  | NegInfinity, _ => false
  | Finite _, PosInfinity => false
  | Finite _, NegInfinity => true
  | Finite x, Finite y => negb (Qle_bool x y)
  end.

(** Integers up to [2^53] in magnitude are doubles. *)
Definition MAX_SAFE : Z := 2 ^ 53.
Definition safe_integer (z : Z) : bool := Z.abs z <=? MAX_SAFE.

(** The range of [Date.now()]: a time value is an integral number of
    milliseconds, at most 8.64e15 in magnitude. *)
Definition MAX_TIME : Z := 8640000000000000.
Definition time_value (t : Z) : Prop := - MAX_TIME <= t <= MAX_TIME.

(** [String(z)] and [`${z}`] for an integer [z] below 1e21 in magnitude:
    its decimal digits, with a leading [-] when negative. *)
Definition NumberToString (z : Z) : string :=
  NilZero.string_of_int (Z.to_int z).

Section ToNumber.

  (** The string-to-number coercion on every string that is not a plain
      run of decimal digits with an optional [-] in front and a value that
      is a safe integer: surrounding white space, the empty string, a [+]
      sign, fractions, exponents, hexadecimal, octal and binary literals,
      [Infinity], rounding of long literals, and [NaN] for the rest. *)
Variable StringToNumber_rest : string -> JSNumber.

  (** Unary [+s] and [Number(s)] on a string. *)
Definition ToNumber (s : string) : JSNumber :=
    match NilZero.int_of_string s with
    | Some d =>
        if safe_integer (Z.of_int d) then of_Z (Z.of_int d)
        else StringToNumber_rest s
    | None => StringToNumber_rest s
    end.

End ToNumber.

(* ================================================================== *)
(** ** Data model *)

(** Modelled from the spec: the [Role] enumeration of [../constants], whose
    declaration is not part of the controller ("role (enumerated: CUSTOMER,
    ADMIN)"). *)
Inductive Role : Type := CUSTOMER | ADMIN.

(** The [User] entity as the controller reads it.  [password] is [None]
    when the property is [null] or absent. *)
Module User.
Record t : Type := mk {
    id : Z;
    fullName : string;
    email : string;
    password : option string;
    role : Role
  }.
End User.

(** The argument of [userService.saveUser]. *)
Module UserData.
Record t : Type := mk {
    fullName : string;
    email : string;
    password : string;
    role : Role
  }.
End UserData.

(** The refresh-token record returned by [tokenService.saveRefreshToken];
    the controller reads its [id] only. *)
Module RefreshToken.
Record t : Type := mk { id : Z }.
End RefreshToken.

(** [TPayload], signed into the access token. *)
Module TPayload.
Record t : Type := mk { userId : string; role : Role }.
End TPayload.

(** [{ ...payload, tokenId }], signed into the refresh token. *)
Module RefreshPayload.
Record t : Type := mk { userId : string; role : Role; tokenId : string }.
End RefreshPayload.

(** Values that are thrown and handed to [next]. *)
Inductive JSError : Type :=
  | HttpError (status : Z) (message : string)
  | Exception (what : string).

Definition createHttpError (status : Z) (message : string) : JSError :=
  HttpError status message.

(** What a call into a service comes back with. *)
Inductive Result (A : Type) : Type :=
  | Ok (a : A)
  | Threw (e : JSError).
Arguments Ok {A} a.
Arguments Threw {A} e.

(* ------------------------------------------------------------------ *)
(** *** Requests *)

Module SendOtpData.
Record t : Type := mk {
    fullName : string;
    email : string;
    password : string;
    confirmPassword : string
  }.
End SendOtpData.

Module VerifyOtpData.
Record t : Type := mk {
    fullName : string;
    email : string;
    otp : string;
    hashOtp : string
  }.
End VerifyOtpData.

Module LoginData.
Record t : Type := mk { email : string; password : string }.
End LoginData.

(** A request whose body was checked by the route's validators: the
    errors they found are what [validationResult(req)] returns. *)
Record Request (Body : Type) : Type := mkRequest {
  validationResult : list string;
  body : Body
}.
Arguments mkRequest {Body} _ _.
Arguments validationResult {Body} _.
Arguments body {Body} _.

(** [req.auth] of [IAuthRequest]. *)
Record Auth : Type := mkAuth { userId : string; tokenId : string }.

(* ------------------------------------------------------------------ *)
(** *** Responses *)

Record CookieOptions : Type := mkCookieOptions {
  domain : string;
  sameSite : string;
  httpOnly : bool;
  maxAge : Z
}.

(** The [Set-Cookie] headers of a response, in the order they were added. *)
Inductive CookieHeader : Type :=
  | SetCookie (name value : string) (options : CookieOptions)
  | ClearCookie (name : string).

(** The JSON bodies the controller sends. *)
Inductive Json : Type :=
  | JValidationErrors (error : list string)
  | JSendOtp (fullName email hashOtp otp : string)
  | JUser (user : User.t)
  | JLogout (message : string).

Record Response : Type := mkResponse {
  statusCode : Z;
  sent : option Json;
  cookies : list CookieHeader
}.

Definition fresh_response : Response :=
  {| statusCode := 200; sent := None; cookies := [] |}.

(* ================================================================== *)
(** ** The services *)

(** A call the controller made, with what came back. *)
Inductive Event : Type :=
  | LoggerInfo (fullName email : string)
  | FindUserByEmail (email : string) (r : Result (option User.t))
  | FindUserByEmailWithPassword (email : string) (r : Result (option User.t))
  | FindUserById (userId : JSNumber) (r : Result (option User.t))
  | SaveUser (data : UserData.t) (r : Result User.t)
  | HashDataUsingBcrypt (data : string) (r : Result string)
  | GenerateOtp (r : Result string)
  | HashDataUsingCrypto (data : string) (r : Result string)
  | HashCompare (data : string) (hash : option string) (r : Result bool)
  | SignAccessToken (payload : TPayload.t) (r : Result string)
  | SaveRefreshToken (user : User.t) (r : Result RefreshToken.t)
  | SignRefreshToken (payload : RefreshPayload.t) (r : Result string)
  | DeleteToken (tokenId : JSNumber) (r : Result bool).

(** The three services over a store of type [Store] (database, random
    generator, keys).  A method takes the store and gives the store back;
    the keyed digest [hashDataUsingCrypto] depends on its argument and on
    the fixed secret only.  [deleteToken] reports whether a record was
    found; the controller does not look at it. *)
Record Services (Store : Type) : Type := mkServices {
  findUserByEmail : string -> Store -> Result (option User.t) * Store;
  findUserByEmailWithPassword :
    string -> Store -> Result (option User.t) * Store;
  findUserById : JSNumber -> Store -> Result (option User.t) * Store;
  saveUser : UserData.t -> Store -> Result User.t * Store;
  hashDataUsingBcrypt : string -> Store -> Result string * Store;
  generateOtp : Store -> Result string * Store;
  hashDataUsingCrypto : string -> Result string;
  hashCompare : string -> option string -> Store -> Result bool * Store;
  signAccessToken : TPayload.t -> Store -> Result string * Store;
  saveRefreshToken : User.t -> Store -> Result RefreshToken.t * Store;
  signRefreshToken : RefreshPayload.t -> Store -> Result string * Store;
  deleteToken : JSNumber -> Store -> Result bool * Store
}.
Arguments findUserByEmail {Store} _ _ _.
Arguments findUserByEmailWithPassword {Store} _ _ _.
Arguments findUserById {Store} _ _ _.
Arguments saveUser {Store} _ _ _.
Arguments hashDataUsingBcrypt {Store} _ _ _.
Arguments generateOtp {Store} _ _.
Arguments hashDataUsingCrypto {Store} _ _.
Arguments hashCompare {Store} _ _ _ _.
Arguments signAccessToken {Store} _ _ _.
Arguments saveRefreshToken {Store} _ _ _.
Arguments signRefreshToken {Store} _ _ _.
Arguments deleteToken {Store} _ _ _.

(* ================================================================== *)
(** ** Handlers as state transformers *)

(** Everything a handler can read or change. *)
Record World (Store : Type) : Type := mkWorld {
  store : Store;                (* behind the services *)
  clock : Z;                    (* [Date.now()] *)
  res : Response;               (* the [res] object *)
  nexts : list JSError;         (* the arguments [next] was called with *)
  trace : list Event            (* the service calls, in order *)
}.
Arguments mkWorld {Store} _ _ _ _ _.
Arguments store {Store} _.
Arguments clock {Store} _.
Arguments res {Store} _.
Arguments nexts {Store} _.
Arguments trace {Store} _.

(** The world a request arrives in. *)
Definition initial {Store : Type} (s : Store) (now : Z) : World Store :=
  mkWorld s now fresh_response [] [].

(** How a piece of a handler ends: with a value, with a thrown error, or
    with a [return] that leaves the handler. *)
Inductive Completion (A : Type) : Type :=
  | Normal (a : A)
  | Throw (e : JSError)
  | Return.
Arguments Normal {A} a.
Arguments Throw {A} e.
Arguments Return {A}.

Definition M (Store A : Type) : Type :=
  World Store -> Completion A * World Store.

Definition ret {Store A} (a : A) : M Store A := fun w => (Normal a, w).

Definition bind {Store A B} (m : M Store A) (k : A -> M Store B)
  : M Store B :=
  fun w =>
    match m w with
    | (Normal a, w') => k a w'
    | (Throw e, w') => (Throw e, w')
    | (Return, w') => (Return, w')
    end.

(** [try { body } catch (error) { handler }]: a [return] inside [body]
    leaves the handler, it is not caught. *)
Definition try_catch {Store A} (body : M Store A)
  (handler : JSError -> M Store A) : M Store A :=
  fun w =>
    match body w with
    | (Throw e, w') => handler e w'
    | r => r
    end.

Declare Scope js_scope.
Delimit Scope js_scope with js.
Notation "x <- m ;; k" := (bind m (fun x => k))
  (at level 100, m at next level, right associativity) : js_scope.
Notation "m ;; k" := (bind m (fun _ => k))
  (at level 100, right associativity) : js_scope.
Notation "'TRY' b 'CATCH' e => h" := (try_catch b (fun e => h))
  (at level 99, b at level 100, e name, h at level 100) : js_scope.

(** [return m;] *)
Definition return_ {Store A} (m : M Store unit) : M Store A :=
  fun w => (Return, snd (m w)).

(** [if (c) stmt] *)
Definition when_ {Store} (c : bool) (m : M Store unit) : M Store unit :=
  if c then m else ret tt.

(** The world a handler leaves behind. *)
Definition run {Store} (handler : M Store unit) (w : World Store)
  : World Store := snd (handler w).


(* ================================================================== *)
(** ** AuthController *)

Section AuthController.

Context {Store : Type}.

(** The services the controller was constructed with. *)
Variable svc : Services Store.

(** The rest of the string-to-number coercion (see [ToNumber]). *)
Variable StringToNumber_rest : string -> JSNumber.

Local Open Scope js_scope.

(* ------------------------------------------------------------------ *)
(** *** [res], [next], [Date.now] and the service calls *)

Definition modify_res (f : Response -> Response) : M Store unit :=
  fun w =>
    (Normal tt,
     mkWorld (store w) (clock w) (f (res w)) (nexts w) (trace w)).

(** [res.status(code).json(value)] *)
Definition res_status_json (code : Z) (value : Json) : M Store unit :=
  modify_res (fun r => mkResponse code (Some value) (cookies r)).

(** [res.json(value)] *)
Definition res_json (value : Json) : M Store unit :=
  modify_res (fun r => mkResponse (statusCode r) (Some value) (cookies r)).

(** [res.cookie(name, value, options)] *)
Definition res_cookie (name value : string) (options : CookieOptions)
  : M Store unit :=
  modify_res (fun r =>
    mkResponse (statusCode r) (sent r)
               (cookies r ++ [SetCookie name value options])).

(** [res.clearCookie(name)] *)
Definition res_clearCookie (name : string) : M Store unit :=
  modify_res (fun r =>
    mkResponse (statusCode r) (sent r) (cookies r ++ [ClearCookie name])).

(** [next(error)] *)
Definition next (error : JSError) : M Store unit :=
  fun w =>
    (Normal tt,
     mkWorld (store w) (clock w) (res w) (nexts w ++ [error]) (trace w)).

(** [Date.now()] *)
Definition Date_now : M Store Z := fun w => (Normal (clock w), w).

(** A call into a service: the store moves on, the call is recorded, and
    the result is returned or thrown. *)
Definition invoke {A : Type} (method : Store -> Result A * Store)
  (event : Result A -> Event) : M Store A :=
  fun w =>
    let (r, s) := method (store w) in
    let w' := mkWorld s (clock w) (res w) (nexts w) (trace w ++ [event r]) in
    match r with
    | Ok a => (Normal a, w')
    | Threw e => (Throw e, w')
    end.

(** [this.logger.info({ fullName, email, passowrd: null,
    confirmPassword: null })] *)
Definition logger_info (fullName email : string) : M Store unit :=
  fun w =>
    (Normal tt,
     mkWorld (store w) (clock w) (res w) (nexts w)
             (trace w ++ [LoggerInfo fullName email])).

Definition userService_findUserByEmail (email : string) :=
  invoke (findUserByEmail svc email) (FindUserByEmail email).
Definition userService_findUserByEmailWithPassword (email : string) :=
  invoke (findUserByEmailWithPassword svc email)
         (FindUserByEmailWithPassword email).
Definition userService_findUserById (userId : JSNumber) :=
  invoke (findUserById svc userId) (FindUserById userId).
Definition userService_saveUser (data : UserData.t) :=
  invoke (saveUser svc data) (SaveUser data).
Definition credentialService_hashDataUsingBcrypt (data : string) :=
  invoke (hashDataUsingBcrypt svc data) (HashDataUsingBcrypt data).
Definition credentialService_generateOtp :=
  invoke (generateOtp svc) GenerateOtp.
Definition credentialService_hashDataUsingCrypto (data : string) :=
  invoke (fun s => (hashDataUsingCrypto svc data, s))
         (HashDataUsingCrypto data).
Definition credentialService_hashCompare (data : string)
  (hash : option string) :=
  invoke (hashCompare svc data hash) (HashCompare data hash).
Definition tokenService_signAccessToken (payload : TPayload.t) :=
  invoke (signAccessToken svc payload) (SignAccessToken payload).
Definition tokenService_saveRefreshToken (user : User.t) :=
  invoke (saveRefreshToken svc user) (SaveRefreshToken user).
Definition tokenService_signRefreshToken (payload : RefreshPayload.t) :=
  invoke (signRefreshToken svc payload) (SignRefreshToken payload).
Definition tokenService_deleteToken (tokenId : JSNumber) :=
  invoke (deleteToken svc tokenId) (DeleteToken tokenId).

(** Truthiness of [User | null]. *)
Definition truthy {A : Type} (o : option A) : bool :=
  match o with Some _ => true | None => false end.

(** [result.isEmpty()] *)
Definition isEmpty (result : list string) : bool :=
  match result with [] => true | _ :: _ => false end.

(* ------------------------------------------------------------------ *)
(** *** The handlers *)

(** [`${otp}.${email}.${expires}.${hashPassword}`] *)
Definition prepareDataForHash (otp email expires hashPassword : string)
  : string :=
  otp ++ "." ++ email ++ "." ++ expires ++ "." ++ hashPassword.

(** [`${hashOtpData}#${expires}#${hashPassword}`] *)
Definition envelope (hashOtpData expires hashPassword : string) : string :=
  hashOtpData ++ "#" ++ expires ++ "#" ++ hashPassword.

(** [const ttl = 1000 * 60 * 10] *)
Definition ttl : Z := 1000 * 60 * 10.

Definition sendOtp (req : Request SendOtpData.t) : M Store unit :=
  let result := validationResult req in
  when_ (negb (isEmpty result))
    (return_ (res_status_json 400 (JValidationErrors result))) ;;
  let fullName := SendOtpData.fullName (body req) in
  let email := SendOtpData.email (body req) in
  let password := SendOtpData.password (body req) in
  let confirmPassword := SendOtpData.confirmPassword (body req) in
  logger_info fullName email ;;
  when_ (negb (password =? confirmPassword)%string)
    (return_
       (next (createHttpError 400 "confirm password not match to password!"))) ;;
  (TRY
     user <- userService_findUserByEmail email ;;
     when_ (truthy user)
       (return_ (next (createHttpError 400 "This email already registered!")))
   CATCH error => return_ (next error)) ;;
  TRY
    hashPassword <- credentialService_hashDataUsingBcrypt password ;;
    now <- Date_now ;;
    let expires := now + ttl in
    otp <- credentialService_generateOtp ;;
    let prepared :=
      prepareDataForHash otp email (NumberToString expires) hashPassword in
    hashOtpData <- credentialService_hashDataUsingCrypto prepared ;;
    let hashOtp := envelope hashOtpData (NumberToString expires) hashPassword in
    return_ (res_json (JSendOtp fullName email hashOtp otp))
  CATCH error => next error.

(** The block under [// create cookies], the same text in [verifyOtp] and
    in [login]; its [try] and [catch] stay in the two handlers. *)
Definition createCookies (user : User.t) : M Store unit :=
  let payload :=
    TPayload.mk (NumberToString (User.id user)) (User.role user) in
  accessToken <- tokenService_signAccessToken payload ;;
  tokenRef <- tokenService_saveRefreshToken user ;;
  refreshToken <-
    tokenService_signRefreshToken
      (RefreshPayload.mk (TPayload.userId payload) (TPayload.role payload)
                         (NumberToString (RefreshToken.id tokenRef))) ;;
  res_cookie "accessToken" accessToken
    (mkCookieOptions "localhost" "strict" true (1000 * 60 * 60 * 24)) ;;
  res_cookie "refreshToken" refreshToken
    (mkCookieOptions "localhost" "strict" true (1000 * 60 * 60 * 24 * 365)).

Definition verifyOtp (req : Request VerifyOtpData.t) : M Store unit :=
  let result := validationResult req in
  when_ (negb (isEmpty result))
    (return_ (res_status_json 400 (JValidationErrors result))) ;;
  let fullName := VerifyOtpData.fullName (body req) in
  let email := VerifyOtpData.email (body req) in
  let otp := VerifyOtpData.otp (body req) in
  let hashOtp := VerifyOtpData.hashOtp (body req) in
  (TRY
     user <- userService_findUserByEmail email ;;
     when_ (truthy user)
       (return_ (next (createHttpError 400 "This email already registered!")))
   CATCH error => return_ (next error)) ;;
  when_ (negb (length (split "#" hashOtp) =? 3)%nat)
    (return_ (next (createHttpError 400 "Otp is invalid!"))) ;;
  (* the array has three elements here: no default of [nth] is taken *)
  let prevHashedOtp := nth 0 (split "#" hashOtp) "" in
  let expires := nth 1 (split "#" hashOtp) "" in
  let hashPassword := nth 2 (split "#" hashOtp) "" in
  (TRY
     now <- Date_now ;;
     when_ (js_gt (of_Z now) (ToNumber StringToNumber_rest expires))
       (return_ (next (createHttpError 408 "Otp is expired!"))) ;;
     let prepared := prepareDataForHash otp email expires hashPassword in
     hashOtpData <- credentialService_hashDataUsingCrypto prepared ;;
     when_ (negb (hashOtpData =? prevHashedOtp)%string)
       (return_ (next (createHttpError 400 "Otp is invalid!")))
   CATCH error => return_ (next error)) ;;
  user <- (TRY
             saved <- userService_saveUser
                        (UserData.mk fullName email hashPassword CUSTOMER) ;;
             ret (Some saved)
           CATCH error => (next error ;; ret None)) ;;
  match user with
  | None => return_ (next (createHttpError 500 "Internal Server Error!"))
  | Some user =>
      (TRY createCookies user CATCH error => return_ (next error)) ;;
      return_ (res_json (JUser user))
  end.

Definition self (auth : Auth) : M Store unit :=
  let userId := userId auth in
  TRY
    user <- userService_findUserById
              (ToNumber StringToNumber_rest userId) ;;
    match user with
    | None => return_ (next (createHttpError 400 "User not found!"))
    | Some user => res_json (JUser user)
    end
  CATCH error => next error.

Definition logout (auth : Auth) : M Store unit :=
  let tokenId := ToNumber StringToNumber_rest (tokenId auth) in
  TRY
    _ <- tokenService_deleteToken tokenId ;;
    res_clearCookie "accessToken" ;;
    res_clearCookie "refreshToken" ;;
    res_json (JLogout "User successfully logout.")
  CATCH error => next error.

(** [{ ...user, password: null }] *)
Definition without_password (user : User.t) : User.t :=
  User.mk (User.id user) (User.fullName user) (User.email user) None
          (User.role user).

Definition login (req : Request LoginData.t) : M Store unit :=
  let result := validationResult req in
  when_ (negb (isEmpty result))
    (return_ (res_status_json 400 (JValidationErrors result))) ;;
  let email := LoginData.email (body req) in
  let password := LoginData.password (body req) in
  user <- (TRY
             found <- userService_findUserByEmailWithPassword email ;;
             match found with
             | None =>
                 return_
                   (next
                      (createHttpError 400 "Email or Password does not match!"))
             | Some user => ret user
             end
           CATCH error => return_ (next error)) ;;
  (TRY
     isMatch <- credentialService_hashCompare password (User.password user) ;;
     when_ (negb isMatch)
       (return_
          (next (createHttpError 400 "Email or Password does not match!")))
   CATCH error => return_ (next error)) ;;
  (TRY createCookies user CATCH error => return_ (next error)) ;;
  return_ (res_json (JUser (without_password user))).

End AuthController.


(* ================================================================== *)
(** ** An in-memory implementation of the services

    Users and refresh-token records are lists; ids are handed out in
    sequence.  [usersDown] and [tokensDown] make the two repositories throw,
    to run the handlers through their [catch] blocks. *)
Module Memory.

Record Store : Type := mkStore {
  users : list User.t;
  tokens : list RefreshToken.t;
  usersDown : bool;
  tokensDown : bool
}.

Definition empty : Store := mkStore [] [] false false.

Definition unavailable : JSError := Exception "repository unavailable".

Definition by_email (email : string) (u : User.t) : bool :=
  (User.email u =? email)%string.

Definition hide_password (u : User.t) : User.t :=
  User.mk (User.id u) (User.fullName u) (User.email u) None (User.role u).

Definition is_id (n : JSNumber) (z : Z) : bool :=
  match n with
  | Finite q => Qeq_bool q (inject_Z z)
  | _ => false
  end.

Definition lookup {A : Type} (s : Store) (r : A) : Result A * Store :=
  if usersDown s then (Threw unavailable, s) else (Ok r, s).

Definition bcrypt (data : string) : string := "$2b$10$" ++ data.

Definition services : Services Store := {|
  findUserByEmail email s :=
    lookup s (option_map hide_password (find (by_email email) (users s)));
  findUserByEmailWithPassword email s :=
    lookup s (find (by_email email) (users s));
  findUserById n s :=
    lookup s (option_map hide_password
                (find (fun u => is_id n (User.id u)) (users s)));
  saveUser data s :=
    if usersDown s then (Threw unavailable, s)
    else
      let u := User.mk (1 + Z.of_nat (length (users s)))
                       (UserData.fullName data) (UserData.email data)
                       (Some (UserData.password data)) (UserData.role data) in
      (Ok u, mkStore (users s ++ [u]) (tokens s) (usersDown s) (tokensDown s));
  hashDataUsingBcrypt data s := (Ok (bcrypt data), s);
  generateOtp s := (Ok "482913", s);
  hashDataUsingCrypto data := Ok ("hmac:" ++ data);
  hashCompare data hash s :=
    (Ok (match hash with
         | Some h => (h =? bcrypt data)%string
         | None => false
         end), s);
  signAccessToken payload s := (Ok ("access:" ++ TPayload.userId payload), s);
  saveRefreshToken user s :=
    if tokensDown s then (Threw unavailable, s)
    else
      let t := RefreshToken.mk (1 + Z.of_nat (length (tokens s))) in
      (Ok t, mkStore (users s) (tokens s ++ [t]) (usersDown s) (tokensDown s));
  signRefreshToken payload s :=
    (Ok ("refresh:" ++ RefreshPayload.userId payload ++ ":"
                    ++ RefreshPayload.tokenId payload), s);
  deleteToken n s :=
    if tokensDown s then (Threw unavailable, s)
    else
      (Ok (existsb (fun t => is_id n (RefreshToken.id t)) (tokens s)),
       mkStore (users s)
               (filter (fun t => negb (is_id n (RefreshToken.id t))) (tokens s))
               (usersDown s) (tokensDown s))
|}.

(** Strings outside the integers are not numbers here. *)
Definition rest (s : string) : JSNumber := NaN.

End Memory.

(* ================================================================== *)
(** ** What the theorems observe *)

(** The errors the controller creates. *)
Definition OtpInvalid : JSError := createHttpError 400 "Otp is invalid!".
Definition OtpExpired : JSError := createHttpError 408 "Otp is expired!".
Definition EmailRegistered : JSError :=
  createHttpError 400 "This email already registered!".
Definition PasswordNotConfirmed : JSError :=
  createHttpError 400 "confirm password not match to password!".
Definition LoginMismatch : JSError :=
  createHttpError 400 "Email or Password does not match!".

Definition is_SaveUser (e : Event) : bool :=
  match e with SaveUser _ _ => true | _ => false end.

Definition is_SaveRefreshToken (e : Event) : bool :=
  match e with SaveRefreshToken _ _ => true | _ => false end.

(** The OTP was accepted: [verifyOtp] went on to register the user. *)
Definition otp_accepted {Store : Type} (w : World Store) : bool :=
  existsb is_SaveUser (trace w).

(** How many refresh-token records the handler asked for. *)
Definition refresh_records {Store : Type} (w : World Store) : nat :=
  length (filter is_SaveRefreshToken (trace w)).

(** The four strings that go into the digest. *)
Record Material : Type := mkMaterial {
  m_otp : string;
  m_email : string;
  m_expires : string;
  m_hashPassword : string
}.

Definition prepared (m : Material) : string :=
  prepareDataForHash (m_otp m) (m_email m) (m_expires m) (m_hashPassword m).

(** Exactly one of the four strings was changed. *)
Inductive one_changed : Material -> Material -> Prop :=
  | changed_otp o o' e x h :
      o <> o' -> one_changed (mkMaterial o e x h) (mkMaterial o' e x h)
  | changed_email o e e' x h :
      e <> e' -> one_changed (mkMaterial o e x h) (mkMaterial o e' x h)
  | changed_expires o e x x' h :
      x <> x' -> one_changed (mkMaterial o e x h) (mkMaterial o e x' h)
  | changed_hashPassword o e x h h' :
      h <> h' -> one_changed (mkMaterial o e x h) (mkMaterial o e x h').

(** The [verifyOtp] request that submits [m] with the digest [digest]. *)
Definition verify_request (fullName digest : string) (m : Material)
  : Request VerifyOtpData.t :=
  mkRequest []
    (VerifyOtpData.mk fullName (m_email m) (m_otp m)
       (envelope digest (m_expires m) (m_hashPassword m))).

(** The four strings a [verifyOtp] request has digested, and the digest
    it compares with: the first field of its envelope. *)
Definition material_of (req : Request VerifyOtpData.t) : Material :=
  let fields := split "#" (VerifyOtpData.hashOtp (body req)) in
  mkMaterial (VerifyOtpData.otp (body req)) (VerifyOtpData.email (body req))
             (nth 1 fields "") (nth 2 fields "").

Definition digest_of (req : Request VerifyOtpData.t) : string :=
  nth 0 (split "#" (VerifyOtpData.hashOtp (body req))) "".

(** The request [req] with its four strings replaced by [m]. *)
Definition resubmit (req : Request VerifyOtpData.t) (m : Material)
  : Request VerifyOtpData.t :=
  verify_request (VerifyOtpData.fullName (body req)) (digest_of req) m.

(** The two flows that issue a session. *)
Inductive Flow : Type :=
  | LoginFlow (req : Request LoginData.t)
  | RegistrationFlow (req : Request VerifyOtpData.t).

Definition run_flow {Store : Type} (svc : Services Store)
  (rest : string -> JSNumber) (flow : Flow) (w : World Store)
  : World Store :=
  match flow with
  | LoginFlow req => run (login svc req) w
  | RegistrationFlow req => run (verifyOtp svc rest req) w
  end.

(** The user a flow issues its session for: the one whose password
    matched, or the one just saved. *)
Definition session_user {Store : Type} (flow : Flow) (user : User.t)
  (w : World Store) : Prop :=
  match flow with
  | LoginFlow req =>
      In (FindUserByEmailWithPassword (LoginData.email (body req))
            (Ok (Some user))) (trace w) /\
      In (HashCompare (LoginData.password (body req)) (User.password user)
            (Ok true)) (trace w)
  | RegistrationFlow req =>
      exists data, In (SaveUser data (Ok user)) (trace w)
  end.

(** The user as the flow puts it into its response. *)
Definition response_user (flow : Flow) (user : User.t) : User.t :=
  match flow with
  | LoginFlow _ => without_password user
  | RegistrationFlow _ => user
  end.

Definition day : Z := 1000 * 60 * 60 * 24.

(** The two cookies of a session. *)
Definition session_cookies (accessToken refreshToken : string)
  : list CookieHeader :=
  [SetCookie "accessToken" accessToken
     (mkCookieOptions "localhost" "strict" true day);
   SetCookie "refreshToken" refreshToken
     (mkCookieOptions "localhost" "strict" true (day * 365))].

(** Requests used to run the handlers. *)
Definition ann_send : Request SendOtpData.t :=
  mkRequest [] (SendOtpData.mk "Ann" "ann@x.com" "p1" "p1").

Definition ann_material : Material :=
  mkMaterial "482913" "ann@x.com" "601000" "$2b$10$p1".

(** Ann's material with the expiry field changed to 999. *)
Definition ann_material_expired : Material :=
  mkMaterial "482913" "ann@x.com" "999" "$2b$10$p1".

(** Ann's material with another otp. *)
Definition ann_material_guess : Material :=
  mkMaterial "000000" "ann@x.com" "601000" "$2b$10$p1".

Definition ann_digest : string := "hmac:482913.ann@x.com.601000.$2b$10$p1".

Definition ann_verify : Request VerifyOtpData.t :=
  verify_request "Ann" ann_digest ann_material.

Definition ann_login : Request LoginData.t :=
  mkRequest [] (LoginData.mk "ann@x.com" "p1").

(** The store after Ann registered at time 601000. *)
Definition ann_registered : Memory.Store :=
  store (run (verifyOtp Memory.services Memory.rest ann_verify)
             (initial Memory.empty 601000)).

(* ------------------------------------------------------------------ *)
(** *** The controller as a whole *)

(** A request to one of the five methods of the controller. *)
Inductive Call : Type :=
  | CallSendOtp (req : Request SendOtpData.t)
  | CallVerifyOtp (req : Request VerifyOtpData.t)
  | CallSelf (auth : Auth)
  | CallLogout (auth : Auth)
  | CallLogin (req : Request LoginData.t).

Definition handle {Store : Type} (svc : Services Store)
  (rest : string -> JSNumber) (call : Call) (w : World Store)
  : World Store :=
  match call with
  | CallSendOtp req => run (sendOtp svc req) w
  | CallVerifyOtp req => run (verifyOtp svc rest req) w
  | CallSelf auth => run (self svc rest auth) w
  | CallLogout auth => run (logout svc rest auth) w
  | CallLogin req => run (login svc req) w
  end.

(** What the validators found in the request; [self] and [logout] have
    no validators. *)
Definition call_errors (call : Call) : list string :=
  match call with
  | CallSendOtp req => validationResult req
  | CallVerifyOtp req => validationResult req
  | CallLogin req => validationResult req
  | CallSelf _ => []
  | CallLogout _ => []
  end.

Definition failure {A : Type} (r : Result A) : list JSError :=
  match r with Ok _ => [] | Threw e => [e] end.

(** The error a recorded call threw, if it threw. *)
Definition thrown (ev : Event) : list JSError :=
  match ev with
  | LoggerInfo _ _ => []
  | FindUserByEmail _ r => failure r
  | FindUserByEmailWithPassword _ r => failure r
  | FindUserById _ r => failure r
  | SaveUser _ r => failure r
  | HashDataUsingBcrypt _ r => failure r
  | GenerateOtp r => failure r
  | HashDataUsingCrypto _ r => failure r
  | HashCompare _ _ r => failure r
  | SignAccessToken _ r => failure r
  | SaveRefreshToken _ r => failure r
  | SignRefreshToken _ r => failure r
  | DeleteToken _ r => failure r
  end.

(** The errors the services threw during a run, in order. *)
Definition errors_thrown {Store : Type} (w : World Store) : list JSError :=
  flat_map thrown (trace w).

Definition saveUser_failed (ev : Event) : bool :=
  match ev with SaveUser _ (Threw _) => true | _ => false end.

(** The calls that change what is stored. *)
Definition is_write (ev : Event) : bool :=
  match ev with
  | SaveUser _ _ | SaveRefreshToken _ _ | DeleteToken _ _ => true
  | _ => false
  end.

Definition InternalServerError : JSError :=
  createHttpError 500 "Internal Server Error!".
Definition UserNotFound : JSError := createHttpError 400 "User not found!".

(** The response to a request that did not pass validation. *)
Definition validation_response (errors : list string) : Response :=
  mkResponse 400 (Some (JValidationErrors errors)) [].

(** The in-memory services with a user repository that reads but does
    not save, and with a key that signs access tokens only. *)
Definition read_only_users : Services Memory.Store :=
  mkServices Memory.Store
    (findUserByEmail Memory.services)
    (findUserByEmailWithPassword Memory.services)
    (findUserById Memory.services)
    (fun _ s => (Threw Memory.unavailable, s))
    (hashDataUsingBcrypt Memory.services)
    (generateOtp Memory.services)
    (hashDataUsingCrypto Memory.services)
    (hashCompare Memory.services)
    (signAccessToken Memory.services)
    (saveRefreshToken Memory.services)
    (signRefreshToken Memory.services)
    (deleteToken Memory.services).

Definition no_refresh_key : Services Memory.Store :=
  mkServices Memory.Store
    (findUserByEmail Memory.services)
    (findUserByEmailWithPassword Memory.services)
    (findUserById Memory.services)
    (saveUser Memory.services)
    (hashDataUsingBcrypt Memory.services)
    (generateOtp Memory.services)
    (hashDataUsingCrypto Memory.services)
    (hashCompare Memory.services)
    (signAccessToken Memory.services)
    (saveRefreshToken Memory.services)
    (fun _ s => (Threw (Exception "secretOrPrivateKey must have a value"), s))
    (deleteToken Memory.services).

Definition no_access_key : Services Memory.Store :=
  mkServices Memory.Store
    (findUserByEmail Memory.services)
    (findUserByEmailWithPassword Memory.services)
    (findUserById Memory.services)
    (saveUser Memory.services)
    (hashDataUsingBcrypt Memory.services)
    (generateOtp Memory.services)
    (hashDataUsingCrypto Memory.services)
    (hashCompare Memory.services)
    (fun _ s => (Threw (Exception "secretOrPrivateKey must have a value"), s))
    (saveRefreshToken Memory.services)
    (signRefreshToken Memory.services)
    (deleteToken Memory.services).

(** Ann's user record. *)
Definition ann : User.t :=
  User.mk 1 "Ann" "ann@x.com" (Some "$2b$10$p1") CUSTOMER.

(** The store with the repositories down. *)
Definition all_down : Memory.Store := Memory.mkStore [] [] true true.

(** A send-OTP request that the validators rejected. *)
Definition nameless_send : Request SendOtpData.t :=
  mkRequest ["fullName is required!"]
            (SendOtpData.mk "" "ann@x.com" "p1" "p1").

(** What a run wrote, in order. *)
Definition writes {Store : Type} (w : World Store) : list Event :=
  filter is_write (trace w).

(** The request that hands an answer of [sendOtp] back to [verifyOtp]. *)
Definition hand_back (fullName email hashOtp otp : string)
  : Request VerifyOtpData.t :=
  mkRequest [] (VerifyOtpData.mk fullName email otp hashOtp).

(** The request [req] with another envelope. *)
Definition with_envelope (req : Request VerifyOtpData.t) (hashOtp : string)
  : Request VerifyOtpData.t :=
  mkRequest (validationResult req)
    (VerifyOtpData.mk (VerifyOtpData.fullName (body req))
       (VerifyOtpData.email (body req)) (VerifyOtpData.otp (body req))
       hashOtp).

(** A request of Ben, whose password hash has a dot in it, and the same
    request with the part of the hash before the dot moved into the expiry
    field. *)
Definition ben_verify : Request VerifyOtpData.t :=
  hand_back "Ben" "ben@x.com"
    "hmac:482913.ben@x.com.601000.$2b$10$abc.def#601000#$2b$10$abc.def"
    "482913".

Definition ben_shifted : Request VerifyOtpData.t :=
  with_envelope ben_verify
    (envelope "hmac:482913.ben@x.com.601000.$2b$10$abc.def"
              ("601000" ++ "." ++ "$2b$10$abc") "def").

(* ================================================================== *)
(** ** Running a handler symbolically *)

Ltac handlers :=
  unfold run_flow, run, sendOtp, verifyOtp, login, logout, self,
    createCookies,
    userService_findUserByEmail, userService_findUserByEmailWithPassword,
    userService_findUserById, userService_saveUser,
    credentialService_hashDataUsingBcrypt, credentialService_generateOtp,
    credentialService_hashDataUsingCrypto, credentialService_hashCompare,
    tokenService_signAccessToken, tokenService_saveRefreshToken,
    tokenService_signRefreshToken, tokenService_deleteToken,
    invoke, logger_info, Date_now, next, res_json, res_status_json,
    res_cookie, res_clearCookie, modify_res, return_, when_, try_catch,
    bind, ret, initial, truthy, isEmpty, otp_accepted, refresh_records in *.

Ltac is_call c :=
  lazymatch c with
  | findUserByEmail _ _ _ => idtac
  | findUserByEmailWithPassword _ _ _ => idtac
  | findUserById _ _ _ => idtac
  | saveUser _ _ _ => idtac
  | hashDataUsingBcrypt _ _ _ => idtac
  | generateOtp _ _ => idtac
  | hashDataUsingCrypto _ _ => idtac
  | hashCompare _ _ _ _ => idtac
  | signAccessToken _ _ _ => idtac
  | saveRefreshToken _ _ _ => idtac
  | signRefreshToken _ _ _ => idtac
  | deleteToken _ _ _ => idtac
  end.

Ltac is_test c :=
  lazymatch c with
  | negb ?b => is_test b
  | String.eqb _ _ => idtac
  | Nat.eqb _ _ => idtac
  | js_gt _ _ => idtac
  | _ => is_var c
  end.

Ltac reduce :=
  cbn -[split js_gt ToNumber prepareDataForHash envelope NumberToString
        String.eqb Nat.eqb nth Z.add Z.mul] in *.

(** One case distinction: on what a service call came back with, or on a
    test of the handler. *)
Ltac branch :=
  match goal with
  | H : ?c = _ |- context [?c] => is_call c; rewrite H
  | |- context [validationResult ?r] => destruct (validationResult r) eqn:?
  | |- context [match ?c with (_, _) => _ end] =>
      is_call c; destruct c as [[?|?] ?] eqn:?
  | |- context [match ?c with Ok _ => _ | Threw _ => _ end] =>
      is_call c; destruct c as [?|?] eqn:?
  | |- context [if ?c then _ else _] => is_test c; destruct c eqn:?
  | |- context [match ?c with Some _ => _ | None => _ end] =>
      is_var c; destruct c
  end.

Ltac execute := handlers; reduce; repeat (branch; reduce).

(** The tests of a handler, as propositions. *)
Ltac tests :=
  repeat match goal with
  | H : negb _ = true |- _ => apply negb_true_iff in H
  | H : negb _ = false |- _ => apply negb_false_iff in H
  | H : (_ =? _)%nat = true |- _ => apply Nat.eqb_eq in H
  | H : (_ =? _)%nat = false |- _ => apply Nat.eqb_neq in H
  | H : (_ =? _)%string = true |- _ => apply String.eqb_eq in H
  | H : (_ =? _)%string = false |- _ => apply String.eqb_neq in H
  end.

Ltac settle := tests; try discriminate; try solve [intuition congruence].

(* ================================================================== *)
(** ** Strings: concatenation and [split] *)

Lemma append_length (a b : string) :
  String.length (a ++ b) = (String.length a + String.length b)%nat.
Proof.
  induction a as [|c a IH]; simpl; [reflexivity | now rewrite IH].
Qed.

Lemma append_assoc (a b c : string) : (a ++ b) ++ c = a ++ (b ++ c).
Proof.
  induction a as [|x a IH]; simpl; [reflexivity | now rewrite IH].
Qed.

Lemma append_inv_head (a b c : string) : a ++ b = a ++ c -> b = c.
Proof.
  induction a as [|x a IH]; simpl; intros H; [exact H|].
  injection H as H. now apply IH.
Qed.

Lemma append_inv_tail (a b c : string) : a ++ c = b ++ c -> a = b.
Proof.
  revert b. induction a as [|x a IH]; intros [|y b] H; simpl in H.
  - reflexivity.
  - apply (f_equal String.length) in H. simpl in H.
    rewrite append_length in H. lia.
  - apply (f_equal String.length) in H. simpl in H.
    rewrite append_length in H. lia.
  - injection H as -> H. f_equal. now apply IH.
Qed.

(** A field between a fixed prefix and a fixed suffix is determined by the
    whole string. *)
Lemma append_inv_middle (p a b q : string) :
  p ++ a ++ q = p ++ b ++ q -> a = b.
Proof.
  intros H. apply append_inv_head in H. now apply append_inv_tail in H.
Qed.

Lemma occurrences_append (c : ascii) (a b : string) :
  occurrences c (a ++ b) = (occurrences c a + occurrences c b)%nat.
Proof.
  induction a as [|x a IH]; simpl; [reflexivity | rewrite IH; lia].
Qed.

Lemma split_length (c : ascii) (s : string) :
  length (split c s) = S (occurrences c s).
Proof.
  induction s as [|x s IH]; simpl; [reflexivity|].
  destruct (Ascii.eqb x c); simpl; [now rewrite IH|].
  destruct (split c s); simpl in *; [discriminate | exact IH].
Qed.

Lemma split_without (c : ascii) (s : string) :
  occurrences c s = O -> split c s = [s].
Proof.
  induction s as [|x s IH]; simpl; [reflexivity|].
  destruct (Ascii.eqb x c); simpl; [discriminate|].
  intros H. now rewrite (IH H).
Qed.

Lemma split_append (c : ascii) (a b : string) :
  occurrences c a = O -> split c (a ++ String c b) = a :: split c b.
Proof.
  induction a as [|x a IH]; simpl.
  - intros _. now rewrite Ascii.eqb_refl.
  - destruct (Ascii.eqb x c); simpl; [discriminate|].
    intros H. now rewrite (IH H).
Qed.

(** An envelope has three fields exactly when the fields it was built
    from hold no [#]; the fields are then read back as they were. *)
Lemma envelope_fields (d e h : string) :
  occurrences "#" d = O -> occurrences "#" e = O -> occurrences "#" h = O ->
  split "#" (envelope d e h) = [d; e; h].
Proof.
  intros Hd He Hh. unfold envelope.
  change ("#" ++ e ++ "#" ++ h) with (String "#" (e ++ String "#" h)).
  rewrite (split_append _ _ _ Hd), (split_append _ _ _ He).
  now rewrite (split_without _ _ Hh).
Qed.

Lemma envelope_length (d e h : string) :
  length (split "#" (envelope d e h)) =
  (3 + occurrences "#" d + occurrences "#" e + occurrences "#" h)%nat.
Proof.
  rewrite split_length. unfold envelope.
  rewrite !occurrences_append. simpl. lia.
Qed.

Lemma envelope_three (d e h : string) :
  length (split "#" (envelope d e h)) = 3%nat ->
  split "#" (envelope d e h) = [d; e; h].
Proof.
  rewrite envelope_length. intros H. apply envelope_fields; lia.
Qed.

Lemma split_nonempty (c : ascii) (s : string) : split c s <> [].
Proof.
  intros H. apply (f_equal (@length string)) in H.
  rewrite split_length in H. discriminate.
Qed.

Lemma join_cons (c : ascii) (f g : string) (fs : list string) :
  join c (f :: g :: fs) = f ++ String c (join c (g :: fs)).
Proof. reflexivity. Qed.

Lemma join_split (c : ascii) (s : string) : join c (split c s) = s.
Proof.
  induction s as [|x s IH]; simpl; [reflexivity|].
  pose proof (split_nonempty c s) as Hne.
  destruct (Ascii.eqb_spec x c) as [->|_];
    destruct (split c s) as [|f fs]; try contradiction.
  - rewrite join_cons, IH. reflexivity.
  - destruct fs as [|g fs].
    + simpl in *. now rewrite IH.
    + rewrite join_cons in *. cbn [append]. now rewrite IH.
Qed.

(** A string with three fields is the envelope of its fields. *)
Lemma three_fields_envelope (s d e h : string) :
  split "#" s = [d; e; h] -> s = envelope d e h.
Proof.
  intros H. rewrite <- (join_split "#" s), H. reflexivity.
Qed.

(** Changing one of the four strings changes the digested string. *)
Lemma prepared_one_changed (m m' : Material) :
  one_changed m m' -> prepared m <> prepared m'.
Proof.
  unfold prepared, prepareDataForHash.
  intros [o o' e x h N | o e e' x h N | o e x x' h N | o e x h h' N];
    cbn [m_otp m_email m_expires m_hashPassword]; intros H; apply N.
  - now apply append_inv_tail in H.
  - apply (append_inv_middle (o ++ ".") e e' ("." ++ x ++ "." ++ h)).
    now rewrite !append_assoc.
  - apply (append_inv_middle (o ++ "." ++ e ++ ".") x x' ("." ++ h)).
    now rewrite !append_assoc.
  - now do 6 apply append_inv_head in H.
Qed.

(* ================================================================== *)
(** ** Numbers: interpolation and coercion *)

Lemma uint_without_hash (d : uint) :
  occurrences "#" (NilEmpty.string_of_uint d) = O.
Proof.
  induction d; simpl; auto.
Qed.

Lemma NumberToString_without_hash (z : Z) :
  occurrences "#" (NumberToString z) = O.
Proof.
  unfold NumberToString, NilZero.string_of_int, NilZero.string_of_uint.
  destruct (Z.to_int z) as [d|d]; destruct d; simpl;
    auto using uint_without_hash.
Qed.

Lemma int_of_NumberToString (z : Z) :
  NilZero.int_of_string (NumberToString z) = Some (Z.to_int z).
Proof.
  unfold NumberToString. apply NilZero.isi.
  - destruct z; simpl; try discriminate.
    intros [= H]. now apply Unsigned.to_uint_nonnil in H.
  - destruct z; simpl; try discriminate.
    intros [= H]. now apply Unsigned.to_uint_nonnil in H.
Qed.

(** An interpolated safe integer is coerced back to itself. *)
Lemma ToNumber_NumberToString (rest : string -> JSNumber) (z : Z) :
  safe_integer z = true -> ToNumber rest (NumberToString z) = of_Z z.
Proof.
  intros H. unfold ToNumber.
  now rewrite int_of_NumberToString, DecimalZ.of_to, H.
Qed.

Lemma time_value_expiry_safe (now : Z) :
  time_value now -> safe_integer (now + ttl) = true.
Proof.
  unfold time_value, safe_integer, MAX_TIME, MAX_SAFE, ttl. intros H.
  apply Z.leb_le. change (2 ^ 53) with 9007199254740992. lia.
Qed.

Lemma js_gt_of_Z (a b : Z) : js_gt (of_Z a) (of_Z b) = (b <? a).
Proof.
  unfold js_gt, of_Z, Qle_bool. simpl.
  rewrite !Z.mul_1_r. now rewrite Z.ltb_antisym.
Qed.

(* ================================================================== *)
(** ** Properties of the handlers *)

Section Properties.

Context {Store : Type}.
Variable svc : Services Store.
Variable rest : string -> JSNumber.

(** What [sendOtp] puts into the envelope it sends. *)
Lemma sendOtp_sent (req : Request SendOtpData.t) (s : Store) (now : Z)
  (fullName email hashOtp otp : string) :
  sent (res (run (sendOtp svc req) (initial s now)))
    = Some (JSendOtp fullName email hashOtp otp) ->
  exists digest hashPassword,
    let expires := NumberToString (now + ttl) in
    hashOtp = envelope digest expires hashPassword /\
    hashDataUsingCrypto svc
      (prepareDataForHash otp email expires hashPassword) = Ok digest /\
    email = SendOtpData.email (body req).
Proof.
  execute; intros H; try discriminate.
  injection H as <- <- <- <-. eauto.
Qed.

(** The checks of [verifyOtp] on a request that passed validation, for an
    e-mail address that is not registered. *)
Lemma verifyOtp_checks (req : Request VerifyOtpData.t) (s : Store)
  (now : Z) :
  validationResult req = [] ->
  fst (findUserByEmail svc (VerifyOtpData.email (body req)) s) = Ok None ->
  let fields := split "#" (VerifyOtpData.hashOtp (body req)) in
  otp_accepted (run (verifyOtp svc rest req) (initial s now)) = true <->
  length fields = 3%nat /\
  js_gt (of_Z now) (ToNumber rest (nth 1 fields "")) = false /\
  hashDataUsingCrypto svc
    (prepareDataForHash (VerifyOtpData.otp (body req))
       (VerifyOtpData.email (body req)) (nth 1 fields "") (nth 2 fields ""))
    = Ok (nth 0 fields "").
Proof.
  intros Hv Hf.
  destruct (findUserByEmail svc (VerifyOtpData.email (body req)) s)
    as [r s1] eqn:E.
  simpl in Hf. subst r.
  execute; settle.
Qed.

(** What a rejected OTP leaves behind: nothing sent, no cookie, and one
    error, chosen by the first check that failed. *)
Lemma verifyOtp_rejected (req : Request VerifyOtpData.t) (s : Store)
  (now : Z) :
  validationResult req = [] ->
  fst (findUserByEmail svc (VerifyOtpData.email (body req)) s) = Ok None ->
  let fields := split "#" (VerifyOtpData.hashOtp (body req)) in
  let w := run (verifyOtp svc rest req) (initial s now) in
  otp_accepted w = false ->
  sent (res w) = None /\ cookies (res w) = [] /\
  nexts w =
    [if negb (length fields =? 3)%nat then OtpInvalid
     else if js_gt (of_Z now) (ToNumber rest (nth 1 fields ""))
     then OtpExpired
     else match
            hashDataUsingCrypto svc
              (prepareDataForHash (VerifyOtpData.otp (body req))
                 (VerifyOtpData.email (body req))
                 (nth 1 fields "") (nth 2 fields ""))
          with
          | Ok _ => OtpInvalid
          | Threw e => e
          end].
Proof.
  intros Hv Hf.
  destruct (findUserByEmail svc (VerifyOtpData.email (body req)) s)
    as [r s1] eqn:E.
  simpl in Hf. subst r.
  execute; intros; settle.
Qed.

(** C10. Whenever [sendOtp] sends an envelope, its second field is the
    clock plus ten minutes, 600000 milliseconds: the digits of
    [Date.now() + 600000], which [verifyOtp] reads back as that number, and
    the same digits went into the digest. *)
Theorem sendOtp_expires_in_ten_minutes (req : Request SendOtpData.t)
  (s : Store) (now : Z) (fullName email hashOtp otp : string) :
  time_value now ->
  sent (res (run (sendOtp svc req) (initial s now)))
    = Some (JSendOtp fullName email hashOtp otp) ->
  ttl = 10 * 60 * 1000 /\
  exists digest hashPassword,
    hashOtp = envelope digest (NumberToString (now + 600000)) hashPassword /\
    ToNumber rest (NumberToString (now + 600000)) = of_Z (now + 600000) /\
    hashDataUsingCrypto svc
      (prepareDataForHash otp email (NumberToString (now + 600000))
         hashPassword) = Ok digest.
Proof.
  intros Ht Hs. split; [reflexivity|].
  destruct (sendOtp_sent _ _ _ _ _ _ _ Hs) as (d & h & He & Hd & _).
  exists d, h. change 600000 with ttl.
  repeat split; auto.
  apply ToNumber_NumberToString. now apply time_value_expiry_safe.
Qed.

(** C1. An envelope sent by [sendOtp] at time [now0] is the digest, the
    expiry time [now0 + ttl] and the password hash joined by [#], the digest
    being that of the otp, the e-mail address, the expiry time and the
    password hash joined by dots.  [verifyOtp] (validated request, e-mail
    address not registered) accepts it at time [now1] if and only if it
    splits on [#] into exactly three fields, [now1 <= now0 + ttl], and the
    digest of the submitted otp and e-mail address with the second and
    third field is the first field. *)
Theorem verifyOtp_accepts_iff (sreq : Request SendOtpData.t) (s0 : Store)
  (now0 : Z) (fullName email hashOtp otp0 : string)
  (vreq : Request VerifyOtpData.t) (s1 : Store) (now1 : Z) :
  time_value now0 ->
  sent (res (run (sendOtp svc sreq) (initial s0 now0)))
    = Some (JSendOtp fullName email hashOtp otp0) ->
  validationResult vreq = [] ->
  VerifyOtpData.hashOtp (body vreq) = hashOtp ->
  fst (findUserByEmail svc (VerifyOtpData.email (body vreq)) s1) = Ok None ->
  let fields := split "#" hashOtp in
  let expiresAt := NumberToString (now0 + ttl) in
  (exists digest hashPassword,
     hashOtp = envelope digest expiresAt hashPassword /\
     hashDataUsingCrypto svc
       (prepareDataForHash otp0 email expiresAt hashPassword) = Ok digest) /\
  (otp_accepted (run (verifyOtp svc rest vreq) (initial s1 now1)) = true <->
   length fields = 3%nat /\
   now1 <= now0 + ttl /\
   hashDataUsingCrypto svc
     (prepareDataForHash (VerifyOtpData.otp (body vreq))
        (VerifyOtpData.email (body vreq)) (nth 1 fields "") (nth 2 fields ""))
     = Ok (nth 0 fields "")).
Proof.
  intros Ht Hs Hv Hh Hf fields expiresAt.
  destruct (sendOtp_sent _ _ _ _ _ _ _ Hs) as (d & h & He & Hd & _).
  split; [now exists d, h|].
  rewrite (verifyOtp_checks vreq s1 now1 Hv Hf).
  rewrite Hh. fold fields.
  assert (Hgt : length fields = 3%nat ->
                js_gt (of_Z now1) (ToNumber rest (nth 1 fields ""))
                = (now0 + ttl <? now1)).
  { intros H3. unfold fields in *. rewrite He in *.
    rewrite (envelope_three _ _ _ H3). cbn [nth].
    rewrite ToNumber_NumberToString by now apply time_value_expiry_safe.
    apply js_gt_of_Z. }
  split; intros (H3 & H & Hd'); repeat split; auto.
  - rewrite (Hgt H3) in H. now apply Z.ltb_ge in H.
  - rewrite (Hgt H3). now apply Z.ltb_ge.
Qed.

(** C3. An envelope that is valid but for the time is accepted when the
    clock is exactly its expiry time and rejected one millisecond later,
    with [408 "Otp is expired!"], which is not the error of an invalid
    OTP, [400 "Otp is invalid!"]. *)
Theorem verifyOtp_expiry_boundary (req : Request VerifyOtpData.t)
  (s : Store) (digest expires hashPassword : string) (expiresAt : Z) :
  validationResult req = [] ->
  fst (findUserByEmail svc (VerifyOtpData.email (body req)) s) = Ok None ->
  split "#" (VerifyOtpData.hashOtp (body req))
    = [digest; expires; hashPassword] ->
  ToNumber rest expires = of_Z expiresAt ->
  hashDataUsingCrypto svc
    (prepareDataForHash (VerifyOtpData.otp (body req))
       (VerifyOtpData.email (body req)) expires hashPassword) = Ok digest ->
  otp_accepted (run (verifyOtp svc rest req) (initial s expiresAt)) = true /\
  (let late := run (verifyOtp svc rest req) (initial s (expiresAt + 1)) in
   nexts late = [OtpExpired] /\ otp_accepted late = false /\
   sent (res late) = None /\ cookies (res late) = []) /\
  OtpExpired = HttpError 408 "Otp is expired!" /\
  OtpInvalid = HttpError 400 "Otp is invalid!" /\
  OtpExpired <> OtpInvalid.
Proof.
  intros Hv Hf Hs Hn Hd.
  assert (Hon : js_gt (of_Z expiresAt) (ToNumber rest expires) = false).
  { rewrite Hn, js_gt_of_Z. apply Z.ltb_irrefl. }
  assert (Hlate : js_gt (of_Z (expiresAt + 1)) (ToNumber rest expires) = true).
  { rewrite Hn, js_gt_of_Z. apply Z.ltb_lt. lia. }
  split; [|split].
  - apply (verifyOtp_checks req s expiresAt Hv Hf).
    rewrite Hs. cbn [nth length]. auto.
  - assert (Hno : otp_accepted
                    (run (verifyOtp svc rest req) (initial s (expiresAt + 1)))
                  = false).
    { apply not_true_is_false. intros Hacc.
      apply (verifyOtp_checks req s (expiresAt + 1) Hv Hf) in Hacc.
      rewrite Hs in Hacc. cbn [nth] in Hacc.
      destruct Hacc as (_ & Hacc & _). congruence. }
    destruct (verifyOtp_rejected req s (expiresAt + 1) Hv Hf Hno)
      as (H1 & H2 & H3).
    rewrite Hs in H3. cbn [nth length] in H3. rewrite Hlate in H3.
    cbv zeta. auto.
  - repeat split; discriminate.
Qed.

(** An accepted request passed validation, for an e-mail address that
    is not registered. *)
Lemma verifyOtp_accepted_unregistered (req : Request VerifyOtpData.t)
  (s : Store) (now : Z) :
  otp_accepted (run (verifyOtp svc rest req) (initial s now)) = true ->
  validationResult req = [] /\
  fst (findUserByEmail svc (VerifyOtpData.email (body req)) s) = Ok None.
Proof.
  execute; intros; settle.
Qed.

(** C2, amended. Take a request that [verifyOtp] accepts: its envelope
    is the one built from its digest, expiry and password-hash fields.
    Change exactly one of the otp, the e-mail address, the expiry field and
    the password-hash field, the digest field staying.  If the e-mail
    address is still not registered, the digest of the changed strings is
    computed, and it does not collide with the digest of the original ones,
    the changed request is rejected: no user is saved, nothing is sent, no
    cookie is set, and [next] gets one error, [408 "Otp is expired!"] when
    the envelope still has three fields and the clock is past the changed
    expiry field, [400 "Otp is invalid!"] otherwise; so always the latter
    when the expiry field is not the one that changed. *)
Theorem changed_material_is_rejected (req : Request VerifyOtpData.t)
  (m' : Material) (s : Store) (now : Z) :
  otp_accepted (run (verifyOtp svc rest req) (initial s now)) = true ->
  one_changed (material_of req) m' ->
  fst (findUserByEmail svc (m_email m') s) = Ok None ->
  (exists digest', hashDataUsingCrypto svc (prepared m') = Ok digest') ->
  (hashDataUsingCrypto svc (prepared (material_of req))
   = hashDataUsingCrypto svc (prepared m')
   -> prepared (material_of req) = prepared m') ->
  let w' := run (verifyOtp svc rest (resubmit req m')) (initial s now) in
  let fields' :=
    split "#" (envelope (digest_of req) (m_expires m') (m_hashPassword m')) in
  req = resubmit req (material_of req) /\
  otp_accepted w' = false /\ sent (res w') = None /\ cookies (res w') = [] /\
  nexts w' =
    [if (length fields' =? 3)%nat
        && js_gt (of_Z now) (ToNumber rest (m_expires m'))
     then OtpExpired else OtpInvalid] /\
  (m_expires m' = m_expires (material_of req) -> nexts w' = [OtpInvalid]).
Proof.
  intros Hacc Hch Hf' [d' Hd'] Hcol w' fields'.
  destruct (verifyOtp_accepted_unregistered _ _ _ Hacc) as [Hv Hf].
  apply (verifyOtp_checks _ _ _ Hv Hf) in Hacc.
  destruct Hacc as (H3 & Hgt & Hd).
  change (hashDataUsingCrypto svc (prepared (material_of req))
          = Ok (digest_of req)) in Hd.
  assert (Hreq : req = resubmit req (material_of req)).
  { destruct req as [v [fn em o h]]. simpl in Hv. subst v.
    unfold resubmit, verify_request, material_of, digest_of in *.
    cbn [body VerifyOtpData.hashOtp VerifyOtpData.otp VerifyOtpData.email
         VerifyOtpData.fullName m_otp m_email m_expires m_hashPassword] in *.
    do 2 f_equal. apply three_fields_envelope.
    destruct (split "#" h) as [|f0 [|f1 [|f2 [|f3 fs]]]];
      try discriminate H3. reflexivity. }
  assert (Hv' : validationResult (resubmit req m') = []) by reflexivity.
  assert (Hno : otp_accepted w' = false).
  { apply not_true_is_false. intros Hacc'.
    apply (verifyOtp_checks _ _ _ Hv' Hf') in Hacc'.
    cbn [resubmit verify_request body VerifyOtpData.hashOtp
         VerifyOtpData.otp VerifyOtpData.email] in Hacc'.
    destruct Hacc' as (H3' & _ & Hd'').
    rewrite (envelope_three _ _ _ H3') in Hd''. cbn [nth] in Hd''.
    change (hashDataUsingCrypto svc (prepared m') = Ok (digest_of req))
      in Hd''.
    apply (prepared_one_changed _ _ Hch). apply Hcol. congruence. }
  destruct (verifyOtp_rejected _ _ now Hv' Hf' Hno) as (Hs & Hc & Hn).
  cbn [resubmit verify_request body VerifyOtpData.hashOtp VerifyOtpData.otp
       VerifyOtpData.email] in Hn.
  fold fields' in Hn. fold w' in Hs, Hc, Hn.
  assert (Hn' : nexts w' =
    [if (length fields' =? 3)%nat
        && js_gt (of_Z now) (ToNumber rest (m_expires m'))
     then OtpExpired else OtpInvalid]).
  { rewrite Hn. destruct (length fields' =? 3)%nat eqn:E3; cbn [negb andb].
    - apply Nat.eqb_eq in E3. unfold fields' in *.
      rewrite (envelope_three _ _ _ E3). cbn [nth].
      change (prepareDataForHash (m_otp m') (m_email m') (m_expires m')
                (m_hashPassword m')) with (prepared m').
      rewrite Hd'. reflexivity.
    - reflexivity. }
  repeat split; auto.
  intros He. rewrite Hn', He.
  change (m_expires (material_of req))
    with (nth 1 (split "#" (VerifyOtpData.hashOtp (body req))) "").
  rewrite Hgt, andb_false_r. reflexivity.
Qed.

(** C4. In the login flow and in the registration flow, when
    [saveRefreshToken] throws, the flow ends by handing that error to
    [next]: no cookie is set and nothing is sent.  And a response that
    carries a cookie comes from a run in which [saveRefreshToken] returned a
    record. *)
Theorem saveRefreshToken_failure_aborts (flow : Flow) (s : Store) (now : Z) :
  let w := run_flow svc rest flow (initial s now) in
  (forall user e,
     In (SaveRefreshToken user (Threw e)) (trace w) ->
     cookies (res w) = [] /\ sent (res w) = None /\ nexts w = [e]) /\
  (cookies (res w) <> [] ->
   exists user tokenRef, In (SaveRefreshToken user (Ok tokenRef)) (trace w)).
Proof.
  destruct flow; execute;
    (split;
     [ intros user e' HIn; simpl in HIn; intuition congruence
     | intros Hc; try congruence; do 2 eexists; simpl; eauto 12 ]).
Qed.

(** C6. A login for an e-mail address that is not known and a login with
    a password that does not match end the same way: [next] gets
    [400 "Email or Password does not match!"], and the response is left
    untouched. *)
Theorem login_mismatch_is_uniform (req1 req2 : Request LoginData.t)
  (s1 s1' s2 s2' s2'' : Store) (now1 now2 : Z) (user : User.t) :
  validationResult req1 = [] ->
  validationResult req2 = [] ->
  findUserByEmailWithPassword svc (LoginData.email (body req1)) s1
    = (Ok None, s1') ->
  findUserByEmailWithPassword svc (LoginData.email (body req2)) s2
    = (Ok (Some user), s2') ->
  hashCompare svc (LoginData.password (body req2)) (User.password user) s2'
    = (Ok false, s2'') ->
  let unknown := run (login svc req1) (initial s1 now1) in
  let wrong := run (login svc req2) (initial s2 now2) in
  nexts unknown = [LoginMismatch] /\ nexts wrong = [LoginMismatch] /\
  res unknown = fresh_response /\ res wrong = fresh_response /\
  LoginMismatch = HttpError 400 "Email or Password does not match!".
Proof.
  intros Hv1 Hv2 H1 H2 H3.
  execute; settle.
  all: rewrite ?H1, ?H2 in *; reduce; rewrite ?H3 in *; reduce; settle.
Qed.

(** C7. A login or a registration that answers with a user asked
    [saveRefreshToken] for exactly one record, for that user, and the
    refresh token in its cookie was signed over the user's id and role and
    the id of that record. *)
Theorem session_refresh_record (flow : Flow) (s : Store) (now : Z)
  (sent_user : User.t) :
  let w := run_flow svc rest flow (initial s now) in
  sent (res w) = Some (JUser sent_user) ->
  refresh_records w = 1%nat /\
  exists user tokenRef accessToken refreshToken,
    session_user flow user w /\
    sent_user = response_user flow user /\
    In (SaveRefreshToken user (Ok tokenRef)) (trace w) /\
    In (SignRefreshToken
          (RefreshPayload.mk (NumberToString (User.id user)) (User.role user)
             (NumberToString (RefreshToken.id tokenRef)))
          (Ok refreshToken)) (trace w) /\
    cookies (res w) = session_cookies accessToken refreshToken.
Proof.
  destruct flow; execute; intros H; try discriminate;
    injection H as <-; tests; subst; (split; [reflexivity|]);
    do 4 eexists; simpl; intuition eauto 12.
Qed.

(** C8. [sendOtp] hands [next] a 400 error and sends nothing when the
    two passwords differ, and also when the e-mail address is registered
    ("This email already registered!" once the passwords are equal);
    [verifyOtp] looks the e-mail address up again, and for a registered one
    it hands [next] the same error without saving a user. *)
Theorem registration_guards_email (sreq : Request SendOtpData.t)
  (vreq : Request VerifyOtpData.t) (s : Store) (now : Z) :
  validationResult sreq = [] ->
  validationResult vreq = [] ->
  let password := SendOtpData.password (body sreq) in
  let confirmPassword := SendOtpData.confirmPassword (body sreq) in
  let w := run (sendOtp svc sreq) (initial s now) in
  let v := run (verifyOtp svc rest vreq) (initial s now) in
  (password <> confirmPassword ->
   nexts w = [PasswordNotConfirmed] /\ sent (res w) = None) /\
  ((exists user,
      fst (findUserByEmail svc (SendOtpData.email (body sreq)) s)
      = Ok (Some user)) ->
   nexts w = [if (password =? confirmPassword)%string
              then EmailRegistered else PasswordNotConfirmed] /\
   sent (res w) = None) /\
  ((exists user,
      fst (findUserByEmail svc (VerifyOtpData.email (body vreq)) s)
      = Ok (Some user)) ->
   nexts v = [EmailRegistered] /\ otp_accepted v = false /\
   sent (res v) = None /\ cookies (res v) = []) /\
  EmailRegistered = HttpError 400 "This email already registered!".
Proof.
  intros Hs Hv password confirmPassword w v.
  subst password confirmPassword w v.
  repeat split.
  1-2: revert H; execute; intros; settle.
  1-2: destruct H as [u H]; revert H; execute; intros; settle.
  all: destruct H as [u H]; revert H; execute; intros; settle.
Qed.

(** C9. [logout] asks [deleteToken] for the record with the number of
    the presented token id and, whatever [deleteToken] returns -- a record
    was found or not --, clears the access-token and the refresh-token
    cookie and sends the logout message. *)
Theorem logout_clears_cookies (auth : Auth) (s s' : Store) (now : Z)
  (found : bool) :
  deleteToken svc (ToNumber rest (tokenId auth)) s = (Ok found, s') ->
  let w := run (logout svc rest auth) (initial s now) in
  trace w = [DeleteToken (ToNumber rest (tokenId auth)) (Ok found)] /\
  store w = s' /\
  res w = mkResponse 200 (Some (JLogout "User successfully logout."))
            [ClearCookie "accessToken"; ClearCookie "refreshToken"] /\
  nexts w = [].
Proof.
  intros H. execute. auto.
Qed.

(** [verifyOtp] answers with the user exactly as [saveUser] returned it,
    saved with the password hash of the envelope. *)
Lemma verifyOtp_sends_saved_user (req : Request VerifyOtpData.t) (s : Store)
  (now : Z) (user : User.t) :
  let w := run (verifyOtp svc rest req) (initial s now) in
  sent (res w) = Some (JUser user) ->
  In (SaveUser
        (UserData.mk (VerifyOtpData.fullName (body req))
           (VerifyOtpData.email (body req))
           (nth 2 (split "#" (VerifyOtpData.hashOtp (body req))) "")
           CUSTOMER)
        (Ok user)) (trace w).
Proof.
  execute; intros H; try discriminate.
  injection H as <-. simpl. auto.
Qed.

(** [login] answers with the password set to [null]. *)
Lemma login_sends_no_password (req : Request LoginData.t) (s : Store)
  (now : Z) (user : User.t) :
  sent (res (run (login svc req) (initial s now))) = Some (JUser user) ->
  User.password user = None.
Proof.
  execute; intros H; try discriminate.
  injection H as <-. reflexivity.
Qed.

End Properties.

(* ================================================================== *)
(** ** The handlers on the in-memory services *)

(** The theorem of C1 at Ann's registration: the envelope sent at time
    1000 is accepted at time 601000. *)
Lemma verifyOtp_accepts_iff_witness :
  time_value 1000 /\
  sent (res (run (sendOtp Memory.services ann_send) (initial Memory.empty 1000)))
    = Some (JSendOtp "Ann" "ann@x.com"
              (VerifyOtpData.hashOtp (body ann_verify)) "482913") /\
  otp_accepted
    (run (verifyOtp Memory.services Memory.rest ann_verify)
         (initial Memory.empty 601000)) = true.
Proof.
  assert (Ht : time_value 1000) by (unfold time_value, MAX_TIME; lia).
  assert (Hs : sent (res (run (sendOtp Memory.services ann_send)
                              (initial Memory.empty 1000)))
               = Some (JSendOtp "Ann" "ann@x.com"
                         (VerifyOtpData.hashOtp (body ann_verify)) "482913"))
    by reflexivity.
  split; [exact Ht | split; [exact Hs|]].
  apply (proj2 (verifyOtp_accepts_iff Memory.services Memory.rest ann_send
                  Memory.empty 1000 "Ann" "ann@x.com" _ "482913" ann_verify
                  Memory.empty 601000 Ht Hs eq_refl eq_refl eq_refl)).
  vm_compute. repeat split; (reflexivity || discriminate).
Defined.

(** The claim of C2 fails for the expiry field: Ann's request is accepted
    at time 1000, and with the expiry field alone changed to 999 it is
    rejected as expired, not as invalid. *)
Lemma changed_expiry_gives_expired :
  otp_accepted
    (run (verifyOtp Memory.services Memory.rest ann_verify)
         (initial Memory.empty 1000)) = true /\
  material_of ann_verify = ann_material /\
  one_changed ann_material ann_material_expired /\
  nexts (run (verifyOtp Memory.services Memory.rest
                (resubmit ann_verify ann_material_expired))
             (initial Memory.empty 1000)) = [OtpExpired] /\
  nexts (run (verifyOtp Memory.services Memory.rest
                (resubmit ann_verify ann_material_expired))
             (initial Memory.empty 1000)) <> [OtpInvalid].
Proof.
  repeat split.
  - apply changed_expires. discriminate.
  - vm_compute. discriminate.
Qed.

(** The theorem of C2 at Ann's request with another otp. *)
Lemma changed_material_is_rejected_witness :
  otp_accepted
    (run (verifyOtp Memory.services Memory.rest ann_verify)
         (initial Memory.empty 1000)) = true /\
  one_changed (material_of ann_verify) ann_material_guess /\
  nexts (run (verifyOtp Memory.services Memory.rest
                (resubmit ann_verify ann_material_guess))
             (initial Memory.empty 1000)) = [OtpInvalid].
Proof.
  assert (Hacc : otp_accepted
            (run (verifyOtp Memory.services Memory.rest ann_verify)
                 (initial Memory.empty 1000)) = true) by reflexivity.
  assert (Hch : one_changed (material_of ann_verify) ann_material_guess)
    by (apply changed_otp; discriminate).
  split; [exact Hacc | split; [exact Hch|]].
  apply (changed_material_is_rejected Memory.services Memory.rest ann_verify
           ann_material_guess Memory.empty 1000
           Hacc Hch eq_refl (ex_intro _ _ eq_refl)).
  - intros H. vm_compute in H. discriminate H.
  - reflexivity.
Defined.

(** The theorem of C3 at Ann's envelope, which expires at 601000. *)
Lemma verifyOtp_expiry_boundary_witness :
  split "#" (VerifyOtpData.hashOtp (body ann_verify))
    = [ann_digest; "601000"; "$2b$10$p1"] /\
  ToNumber Memory.rest "601000" = of_Z 601000 /\
  otp_accepted
    (run (verifyOtp Memory.services Memory.rest ann_verify)
         (initial Memory.empty 601000)) = true /\
  nexts (run (verifyOtp Memory.services Memory.rest ann_verify)
             (initial Memory.empty 601001)) = [OtpExpired].
Proof.
  assert (Hs : split "#" (VerifyOtpData.hashOtp (body ann_verify))
               = [ann_digest; "601000"; "$2b$10$p1"]) by reflexivity.
  assert (Hn : ToNumber Memory.rest "601000" = of_Z 601000) by reflexivity.
  destruct (verifyOtp_expiry_boundary Memory.services Memory.rest ann_verify
              Memory.empty ann_digest "601000" "$2b$10$p1" 601000
              eq_refl eq_refl Hs Hn eq_refl) as (Hon & (Hlate & _) & _).
  repeat split; assumption.
Defined.

(** The theorem of C4 with the token repository down: at Ann's
    registration and at her login. *)
Lemma saveRefreshToken_failure_aborts_witness :
  let down s := Memory.mkStore (Memory.users s) (Memory.tokens s) false true in
  let ann := User.mk 1 "Ann" "ann@x.com" (Some "$2b$10$p1") CUSTOMER in
  let r := run_flow Memory.services Memory.rest (RegistrationFlow ann_verify)
             (initial (down Memory.empty) 601000) in
  let l := run_flow Memory.services Memory.rest (LoginFlow ann_login)
             (initial (down ann_registered) 700000) in
  (In (SaveRefreshToken ann (Threw Memory.unavailable)) (trace r) /\
   cookies (res r) = [] /\ sent (res r) = None /\
   nexts r = [Memory.unavailable]) /\
  (In (SaveRefreshToken ann (Threw Memory.unavailable)) (trace l) /\
   cookies (res l) = [] /\ sent (res l) = None /\
   nexts l = [Memory.unavailable]).
Proof.
  intros down ann r l.
  assert (Hr : In (SaveRefreshToken ann (Threw Memory.unavailable)) (trace r))
    by (vm_compute; auto 8).
  assert (Hl : In (SaveRefreshToken ann (Threw Memory.unavailable)) (trace l))
    by (vm_compute; auto 8).
  split.
  - split; [exact Hr|].
    exact (proj1 (saveRefreshToken_failure_aborts Memory.services Memory.rest
                    (RegistrationFlow ann_verify) (down Memory.empty) 601000)
                 ann Memory.unavailable Hr).
  - split; [exact Hl|].
    exact (proj1 (saveRefreshToken_failure_aborts Memory.services Memory.rest
                    (LoginFlow ann_login) (down ann_registered) 700000)
                 ann Memory.unavailable Hl).
Defined.

(** C5. The verify-OTP response is not scrubbed: with a [saveUser] that
    returns the record it saved, the response to Ann's registration carries
    her password hash, where the response to her login carries [null]. *)
Theorem verifyOtp_sends_password_hash :
  sent (res (run (verifyOtp Memory.services Memory.rest ann_verify)
                 (initial Memory.empty 601000)))
    = Some (JUser (User.mk 1 "Ann" "ann@x.com" (Some "$2b$10$p1") CUSTOMER)) /\
  sent (res (run (login Memory.services ann_login)
                 (initial ann_registered 700000)))
    = Some (JUser (User.mk 1 "Ann" "ann@x.com" None CUSTOMER)).
Proof.
  split; reflexivity.
Qed.

(** The theorem of C6: a login for Bob, who is not registered, and a
    login for Ann with the password [p2]. *)
Lemma login_mismatch_is_uniform_witness :
  let bob := mkRequest [] (LoginData.mk "bob@x.com" "p1") in
  let ann := mkRequest [] (LoginData.mk "ann@x.com" "p2") in
  nexts (run (login Memory.services bob) (initial ann_registered 700000))
    = [LoginMismatch] /\
  nexts (run (login Memory.services ann) (initial ann_registered 700000))
    = [LoginMismatch].
Proof.
  intros bob ann.
  destruct (login_mismatch_is_uniform Memory.services bob ann
              ann_registered ann_registered ann_registered ann_registered
              ann_registered 700000 700000
              (User.mk 1 "Ann" "ann@x.com" (Some "$2b$10$p1") CUSTOMER)
              eq_refl eq_refl eq_refl eq_refl eq_refl)
    as (H1 & H2 & _).
  split; assumption.
Defined.

(** The theorem of C7 at Ann's login: the second refresh-token record. *)
Lemma session_refresh_record_witness :
  let w := run_flow Memory.services Memory.rest (LoginFlow ann_login)
             (initial ann_registered 700000) in
  sent (res w) = Some (JUser (User.mk 1 "Ann" "ann@x.com" None CUSTOMER)) /\
  refresh_records w = 1%nat.
Proof.
  intros w.
  assert (Hs : sent (res w)
               = Some (JUser (User.mk 1 "Ann" "ann@x.com" None CUSTOMER)))
    by reflexivity.
  split; [exact Hs|].
  exact (proj1 (session_refresh_record Memory.services Memory.rest
                  (LoginFlow ann_login) ann_registered 700000 _ Hs)).
Defined.

(** The theorem of C8 once Ann is registered: a second send and a second
    verify for her address, and a send with two different passwords. *)
Lemma registration_guards_email_witness :
  let typo := mkRequest [] (SendOtpData.mk "Ann" "ann@x.com" "p1" "p2") in
  nexts (run (sendOtp Memory.services typo) (initial Memory.empty 1000))
    = [PasswordNotConfirmed] /\
  nexts (run (sendOtp Memory.services ann_send) (initial ann_registered 1000))
    = [EmailRegistered] /\
  nexts (run (verifyOtp Memory.services Memory.rest ann_verify)
             (initial ann_registered 1000)) = [EmailRegistered] /\
  otp_accepted (run (verifyOtp Memory.services Memory.rest ann_verify)
                    (initial ann_registered 1000)) = false.
Proof.
  intros typo.
  destruct (registration_guards_email Memory.services Memory.rest typo
              ann_verify Memory.empty 1000 eq_refl eq_refl)
    as (H1 & _).
  destruct (registration_guards_email Memory.services Memory.rest ann_send
              ann_verify ann_registered 1000 eq_refl eq_refl)
    as (_ & H2 & H3 & _).
  split; [apply H1; discriminate|].
  split; [apply H2; eexists; reflexivity|].
  destruct H3 as (H3 & H4 & _); [eexists; reflexivity|].
  split; assumption.
Defined.

(** The theorem of C9 for the id of Ann's record and for an id that no
    record has. *)
Lemma logout_clears_cookies_witness :
  let cleared := [ClearCookie "accessToken"; ClearCookie "refreshToken"] in
  cookies (res (run (logout Memory.services Memory.rest (mkAuth "1" "1"))
                    (initial ann_registered 700000))) = cleared /\
  cookies (res (run (logout Memory.services Memory.rest (mkAuth "1" "7"))
                    (initial ann_registered 700000))) = cleared.
Proof.
  intros cleared.
  destruct (logout_clears_cookies Memory.services Memory.rest (mkAuth "1" "1")
              ann_registered _ 700000 true eq_refl) as (_ & _ & H1 & _).
  destruct (logout_clears_cookies Memory.services Memory.rest (mkAuth "1" "7")
              ann_registered _ 700000 false eq_refl) as (_ & _ & H2 & _).
  split; [rewrite H1 | rewrite H2]; reflexivity.
Defined.

(** The theorem of C10 at Ann's send at time 1000. *)
Lemma sendOtp_expires_in_ten_minutes_witness :
  time_value 1000 /\
  exists digest hashPassword,
    VerifyOtpData.hashOtp (body ann_verify)
    = envelope digest (NumberToString (1000 + 600000)) hashPassword.
Proof.
  assert (Ht : time_value 1000) by (unfold time_value, MAX_TIME; lia).
  split; [exact Ht|].
  destruct (sendOtp_expires_in_ten_minutes Memory.services Memory.rest
              ann_send Memory.empty 1000 "Ann" "ann@x.com"
              (VerifyOtpData.hashOtp (body ann_verify)) "482913" Ht eq_refl)
    as (_ & d & h & He & _).
  exists d, h. exact He.
Defined.

(* ================================================================== *)
(** ** The controller as a whole: responses, errors and cookies *)

Section Controller.

Context {Store : Type}.
Variable svc : Services Store.
Variable rest : string -> JSNumber.

(** X1. A request the validators rejected is answered with status 400
    and their errors; no service is called, not even the logger, [next] is
    not called, and no cookie is set. *)
Theorem invalid_request_calls_nothing (call : Call) (s : Store) (now : Z) :
  call_errors call <> [] ->
  handle svc rest call (initial s now)
  = mkWorld s now (validation_response (call_errors call)) [] [].
Proof.
  destruct call; cbn [handle call_errors]; intros H; try contradiction;
    execute; try contradiction; reflexivity.
Qed.

(** X2. The first error a service throws is the first argument [next]
    gets, nothing is sent, and no service is called after it: one error is
    thrown per run at most.  [next] gets nothing else, except in
    [verifyOtp] when it is [saveUser] that threw. *)
Theorem service_error_reaches_next (call : Call) (s : Store) (now : Z)
  (e : JSError) :
  let w := handle svc rest call (initial s now) in
  In e (errors_thrown w) ->
  errors_thrown w = [e] /\
  sent (res w) = None /\
  nexts w = e :: (if existsb saveUser_failed (trace w)
                  then [InternalServerError] else []).
Proof.
  destruct call; cbn [handle]; execute; unfold errors_thrown;
    cbn; intros H; intuition (subst; auto).
Qed.

(** X3. Every run ends in exactly one of two ways: a body is sent and
    [next] is never called, or nothing is sent and [next] is called. *)
Theorem response_or_next (call : Call) (s : Store) (now : Z) :
  let w := handle svc rest call (initial s now) in
  sent (res w) = None <-> nexts w <> [].
Proof.
  destruct call; cbn [handle]; execute;
    split; intros H; try discriminate; try congruence.
Qed.

(** X4. Cookies go with a success: the two session cookies are set
    together and only in a run that sends a user, the two cookies are
    cleared together and only in a run that sends the logout message, and
    every other run leaves the cookies alone. *)
Theorem cookies_only_on_success (call : Call) (s : Store) (now : Z) :
  let w := handle svc rest call (initial s now) in
  cookies (res w) = [] \/
  (exists accessToken refreshToken user,
     cookies (res w) = session_cookies accessToken refreshToken /\
     sent (res w) = Some (JUser user) /\ nexts w = []) \/
  (cookies (res w) = [ClearCookie "accessToken"; ClearCookie "refreshToken"]
   /\ sent (res w) = Some (JLogout "User successfully logout.")
   /\ nexts w = []).
Proof.
  destruct call; cbn [handle]; execute; auto;
    right; left; do 3 eexists; repeat split; reflexivity.
Qed.

End Controller.

(* ================================================================== *)
(** ** What the handlers write, and when a session is issued *)

Section Sessions.

Context {Store : Type}.
Variable svc : Services Store.
Variable rest : string -> JSNumber.

(** X5. What each method writes: [sendOtp] and [self] nothing; [logout]
    one [deleteToken], for the number of the token id; [login] at most one
    refresh-token record; [verifyOtp] at most one user, always a CUSTOMER
    with the name and address of the request and the third field of the
    envelope as password, and after it at most one refresh-token record,
    for the user that [saveUser] returned. *)
Theorem write_discipline (call : Call) (s : Store) (now : Z) :
  let w := handle svc rest call (initial s now) in
  match call with
  | CallSendOtp _ | CallSelf _ => writes w = []
  | CallLogout auth =>
      exists r, writes w = [DeleteToken (ToNumber rest (tokenId auth)) r]
  | CallLogin _ =>
      writes w = [] \/ exists user r, writes w = [SaveRefreshToken user r]
  | CallVerifyOtp req =>
      let data :=
        UserData.mk (VerifyOtpData.fullName (body req))
          (VerifyOtpData.email (body req))
          (nth 2 (split "#" (VerifyOtpData.hashOtp (body req))) "")
          CUSTOMER in
      writes w = [] \/
      (exists r, writes w = [SaveUser data r]) \/
      (exists user r,
         writes w = [SaveUser data (Ok user); SaveRefreshToken user r])
  end.
Proof.
  destruct call; cbn [handle]; execute; unfold writes; cbn; eauto 6.
Qed.

(** X6. When [saveUser] throws in [verifyOtp], [next] is called twice,
    with the error and then with [500 "Internal Server Error!"]; nothing is
    sent, no token is signed and no refresh-token record is asked for. *)
Theorem saveUser_failure_calls_next_twice (req : Request VerifyOtpData.t)
  (s : Store) (now : Z) (data : UserData.t) (e : JSError) :
  let w := run (verifyOtp svc rest req) (initial s now) in
  In (SaveUser data (Threw e)) (trace w) ->
  nexts w = [e; InternalServerError] /\
  res w = fresh_response /\
  refresh_records w = 0%nat /\
  last (trace w) (LoggerInfo "" "") = SaveUser data (Threw e).
Proof.
  execute; intros H; simpl in H; unfold InternalServerError;
    intuition (try congruence).
Qed.

(** X7. When the access token cannot be signed, in the login flow or in
    the registration flow, no refresh-token record is asked for: [next]
    gets the error and the response is left untouched. *)
Theorem signAccessToken_failure_saves_nothing (flow : Flow) (s : Store)
  (now : Z) (payload : TPayload.t) (e : JSError) :
  let w := run_flow svc rest flow (initial s now) in
  In (SignAccessToken payload (Threw e)) (trace w) ->
  refresh_records w = 0%nat /\ nexts w = [e] /\ res w = fresh_response.
Proof.
  destruct flow; execute; intros H; simpl in H; intuition (try congruence).
Qed.

(** X8. When the refresh token cannot be signed, the refresh-token
    record was already saved and stays: [next] gets the error, and the
    response carries neither cookie nor body. *)
Theorem signRefreshToken_failure_leaves_record (flow : Flow) (s : Store)
  (now : Z) (payload : RefreshPayload.t) (e : JSError) :
  let w := run_flow svc rest flow (initial s now) in
  In (SignRefreshToken payload (Threw e)) (trace w) ->
  (exists user tokenRef,
     In (SaveRefreshToken user (Ok tokenRef)) (trace w) /\
     RefreshPayload.tokenId payload
     = NumberToString (RefreshToken.id tokenRef)) /\
  nexts w = [e] /\ res w = fresh_response.
Proof.
  destruct flow; execute; intros H; simpl in H;
    repeat match goal with
           | H : _ \/ _ |- _ => destruct H
           | H : False |- _ => destruct H
           end; try discriminate;
    match goal with
    | H : SignRefreshToken _ _ = SignRefreshToken _ _ |- _ =>
        injection H as <- <-
    end;
    (split; [do 2 eexists; simpl; split; [eauto 8 | reflexivity] | auto]).
Qed.

(** X9. When [deleteToken] throws, [logout] hands the error to [next]
    and clears no cookie. *)
Theorem logout_failure_keeps_cookies (auth : Auth) (s s' : Store) (now : Z)
  (e : JSError) :
  deleteToken svc (ToNumber rest (tokenId auth)) s = (Threw e, s') ->
  let w := run (logout svc rest auth) (initial s now) in
  nexts w = [e] /\ res w = fresh_response /\ store w = s'.
Proof.
  intros H. execute. auto.
Qed.

(** X10. [self] looks up the number of the user id, once, and answers
    with the user as the service returned it; for a user that is not
    found [next] gets [400 "User not found!"], and an error of the lookup
    goes to [next] as it is. *)
Theorem self_answers (auth : Auth) (s : Store) (now : Z) :
  let userId := ToNumber rest (userId auth) in
  let found := findUserById svc userId s in
  let w := run (self svc rest auth) (initial s now) in
  trace w = [FindUserById userId (fst found)] /\
  store w = snd found /\
  cookies (res w) = [] /\
  match fst found with
  | Ok (Some user) =>
      sent (res w) = Some (JUser user) /\ statusCode (res w) = 200 /\
      nexts w = []
  | Ok None => sent (res w) = None /\ nexts w = [UserNotFound]
  | Threw e => sent (res w) = None /\ nexts w = [e]
  end.
Proof.
  cbv zeta. unfold UserNotFound. execute; repeat split.
Qed.

(** X11. A login with a known address and a matching password, when
    the three token calls return, answers with status 200, the user with
    the password set to [null], and the two session cookies: the access
    token and the refresh token as they were signed.  The store is the one
    the last call left. *)
Theorem login_issues_session (req : Request LoginData.t)
  (s s1 s2 s3 s4 s5 : Store) (now : Z) (user : User.t)
  (accessToken refreshToken : string) (tokenRef : RefreshToken.t) :
  validationResult req = [] ->
  findUserByEmailWithPassword svc (LoginData.email (body req)) s
    = (Ok (Some user), s1) ->
  hashCompare svc (LoginData.password (body req)) (User.password user) s1
    = (Ok true, s2) ->
  signAccessToken svc
    (TPayload.mk (NumberToString (User.id user)) (User.role user)) s2
    = (Ok accessToken, s3) ->
  saveRefreshToken svc user s3 = (Ok tokenRef, s4) ->
  signRefreshToken svc
    (RefreshPayload.mk (NumberToString (User.id user)) (User.role user)
       (NumberToString (RefreshToken.id tokenRef))) s4
    = (Ok refreshToken, s5) ->
  let w := run (login svc req) (initial s now) in
  res w = mkResponse 200 (Some (JUser (without_password user)))
            (session_cookies accessToken refreshToken) /\
  nexts w = [] /\ store w = s5.
Proof.
  clear rest. intros Hv H1 H2 H3 H4 H5.
  execute; settle; auto.
Qed.

End Sessions.

(* ================================================================== *)
(** ** The envelope between [sendOtp] and [verifyOtp] *)

Section Envelopes.

Context {Store : Type}.
Variable svc : Services Store.
Variable rest : string -> JSNumber.

(** What [sendOtp] did before it sent an envelope. *)
Lemma sendOtp_sent_trace (req : Request SendOtpData.t) (s : Store) (now : Z)
  (fullName email hashOtp otp : string) :
  let w := run (sendOtp svc req) (initial s now) in
  sent (res w) = Some (JSendOtp fullName email hashOtp otp) ->
  exists digest hashPassword,
    hashOtp = envelope digest (NumberToString (now + ttl)) hashPassword /\
    hashDataUsingCrypto svc
      (prepareDataForHash otp email (NumberToString (now + ttl)) hashPassword)
    = Ok digest /\
    email = SendOtpData.email (body req) /\
    In (HashDataUsingBcrypt (SendOtpData.password (body req))
          (Ok hashPassword)) (trace w) /\
    In (GenerateOtp (Ok otp)) (trace w).
Proof.
  execute; intros H; try discriminate.
  injection H as <- <- <- <-. do 2 eexists. simpl. eauto 12.
Qed.

(** The user [verifyOtp] saves, whenever it saves one. *)
Lemma verifyOtp_saved_data (req : Request VerifyOtpData.t) (s : Store)
  (now : Z) (data : UserData.t) (r : Result User.t) :
  let w := run (verifyOtp svc rest req) (initial s now) in
  In (SaveUser data r) (trace w) ->
  data = UserData.mk (VerifyOtpData.fullName (body req))
           (VerifyOtpData.email (body req))
           (nth 2 (split "#" (VerifyOtpData.hashOtp (body req))) "")
           CUSTOMER /\
  otp_accepted w = true.
Proof.
  execute; intros H; simpl in H; intuition (try congruence).
Qed.

(** X12. The answer of [sendOtp] is all [verifyOtp] asks for: it
    carries the otp that [generateOtp] returned, and handed back as it is
    (envelope, otp and e-mail address; the address still not registered), it is accepted exactly when the envelope has three
    fields -- neither the digest nor the password hash holds a [#] -- and
    the clock is at most ten minutes past the send.  The user then saved
    has the password hash that [hashDataUsingBcrypt] returned at the send,
    the e-mail address of the send, and the role CUSTOMER. *)
Theorem send_then_verify (sreq : Request SendOtpData.t) (s0 : Store)
  (now0 : Z) (fullName email hashOtp otp name : string) (s1 : Store)
  (now1 : Z) :
  time_value now0 ->
  sent (res (run (sendOtp svc sreq) (initial s0 now0)))
    = Some (JSendOtp fullName email hashOtp otp) ->
  fst (findUserByEmail svc email s1) = Ok None ->
  let w := run (verifyOtp svc rest (hand_back name email hashOtp otp))
               (initial s1 now1) in
  In (GenerateOtp (Ok otp))
     (trace (run (sendOtp svc sreq) (initial s0 now0))) /\
  (otp_accepted w = true <->
   length (split "#" hashOtp) = 3%nat /\ now1 <= now0 + ttl) /\
  (forall data r,
     In (SaveUser data r) (trace w) ->
     In (HashDataUsingBcrypt (SendOtpData.password (body sreq))
           (Ok (UserData.password data)))
        (trace (run (sendOtp svc sreq) (initial s0 now0))) /\
     UserData.email data = SendOtpData.email (body sreq) /\
     UserData.role data = CUSTOMER).
Proof.
  intros Ht Hs Hf w.
  destruct (sendOtp_sent_trace _ _ _ _ _ _ _ Hs)
    as (d & h & He & Hd & Hem & Hb & Ho).
  assert (Hv : validationResult (hand_back name email hashOtp otp) = [])
    by reflexivity.
  assert (Hacc : otp_accepted w = true <->
                 length (split "#" hashOtp) = 3%nat /\ now1 <= now0 + ttl).
  { unfold w. rewrite (verifyOtp_checks svc rest _ s1 now1 Hv Hf).
    cbn [hand_back body VerifyOtpData.hashOtp VerifyOtpData.otp
         VerifyOtpData.email].
    split.
    - intros (H3 & Hgt & _). split; [exact H3|].
      rewrite He in H3, Hgt. rewrite (envelope_three _ _ _ H3) in Hgt.
      cbn [nth] in Hgt.
      rewrite ToNumber_NumberToString, js_gt_of_Z in Hgt
        by now apply time_value_expiry_safe.
      now apply Z.ltb_ge in Hgt.
    - intros (H3 & Hle). split; [exact H3|].
      rewrite He in *. rewrite (envelope_three _ _ _ H3). cbn [nth].
      rewrite ToNumber_NumberToString, js_gt_of_Z
        by now apply time_value_expiry_safe.
      split; [now apply Z.ltb_ge | exact Hd]. }
  split; [exact Ho | split; [exact Hacc|]].
  intros data r HIn.
  destruct (verifyOtp_saved_data _ _ _ _ _ HIn) as [-> Ha].
  apply Hacc in Ha. destruct Ha as [H3 _].
  cbn [hand_back body VerifyOtpData.hashOtp VerifyOtpData.email
       UserData.password UserData.email UserData.role].
  rewrite He in H3 |- *. rewrite (envelope_three _ _ _ H3). cbn [nth].
  repeat split; auto.
Qed.

(** X13. The dots of the digested string do not mark the fields.  Take
    an accepted request whose password-hash field is [a.h].  With [a] moved
    behind the expiry field -- an envelope with the same digest, the expiry
    field [x.a] and the password-hash field [h] -- the digested string is
    the same, so the request is accepted again (the address still not
    registered) whenever the clock is not past what [x.a] is as a number:
    at every time when that is [NaN].  The user is then saved with [h] as
    password. *)
Theorem dots_do_not_bind_fields (req : Request VerifyOtpData.t)
  (s s' : Store) (now now' : Z) (d x a h : string) :
  otp_accepted (run (verifyOtp svc rest req) (initial s now)) = true ->
  split "#" (VerifyOtpData.hashOtp (body req)) = [d; x; a ++ "." ++ h] ->
  fst (findUserByEmail svc (VerifyOtpData.email (body req)) s') = Ok None ->
  js_gt (of_Z now') (ToNumber rest (x ++ "." ++ a)) = false ->
  let req' := with_envelope req (envelope d (x ++ "." ++ a) h) in
  let w' := run (verifyOtp svc rest req') (initial s' now') in
  otp_accepted w' = true /\
  (forall data r, In (SaveUser data r) (trace w') ->
                  UserData.password data = h).
Proof.
  intros Hacc Hs Hf' Hgt' req' w'.
  destruct (verifyOtp_accepted_unregistered _ _ _ _ _ Hacc) as [Hv Hf].
  apply (verifyOtp_checks _ _ _ _ _ Hv Hf) in Hacc.
  rewrite Hs in Hacc. cbn [nth] in Hacc. destruct Hacc as (H3 & _ & Hd).
  pose proof (three_fields_envelope _ _ _ _ Hs) as He.
  assert (H3' : length (split "#" (envelope d x (a ++ "." ++ h))) = 3%nat)
    by (rewrite <- He, Hs; reflexivity).
  rewrite envelope_length, !occurrences_append in H3'.
  assert (Hs' : split "#" (envelope d (x ++ "." ++ a) h)
                = [d; x ++ "." ++ a; h]).
  { apply envelope_fields; rewrite ?occurrences_append; simpl; lia. }
  assert (Hacc' : otp_accepted w' = true).
  { apply (verifyOtp_checks svc rest req' s' now' Hv Hf').
    cbn [req' with_envelope body VerifyOtpData.hashOtp VerifyOtpData.otp
         VerifyOtpData.email].
    rewrite Hs'. cbn [nth length]. repeat split; auto.
    rewrite <- Hd. f_equal. unfold prepareDataForHash.
    now rewrite !append_assoc. }
  split; [exact Hacc'|].
  intros data r HIn.
  destruct (verifyOtp_saved_data _ _ _ _ _ HIn) as [-> _].
  cbn [req' with_envelope body VerifyOtpData.hashOtp UserData.password].
  now rewrite Hs'.
Qed.

(** X14. [verifyOtp] computes a digest only for a request that passed
    validation, for an e-mail address that is not registered, with an
    envelope of three fields that is not expired, and only over the
    submitted otp and address with the second and third field. *)
Theorem digest_only_for_live_envelope (req : Request VerifyOtpData.t)
  (s : Store) (now : Z) (data : string) (r : Result string) :
  let w := run (verifyOtp svc rest req) (initial s now) in
  let fields := split "#" (VerifyOtpData.hashOtp (body req)) in
  In (HashDataUsingCrypto data r) (trace w) ->
  validationResult req = [] /\
  fst (findUserByEmail svc (VerifyOtpData.email (body req)) s) = Ok None /\
  length fields = 3%nat /\
  js_gt (of_Z now) (ToNumber rest (nth 1 fields "")) = false /\
  data = prepared (material_of req).
Proof.
  execute; intros H; simpl in H;
    repeat match goal with
           | H : _ \/ _ |- _ => destruct H
           | H : False |- _ => destruct H
           end; try discriminate;
    match goal with
    | H : HashDataUsingCrypto _ _ = HashDataUsingCrypto _ _ |- _ =>
        injection H as <- <-
    end; settle; repeat split; auto.
Qed.

(** X15. A registration whose OTP is accepted, when [saveUser] and the
    three token calls return, answers with status 200, the user as
    [saveUser] returned it, and the two session cookies. *)
Theorem registration_issues_session (req : Request VerifyOtpData.t)
  (s s1 s2 s3 s4 : Store) (now : Z) (user : User.t)
  (accessToken refreshToken : string) (tokenRef : RefreshToken.t) :
  otp_accepted (run (verifyOtp svc rest req) (initial s now)) = true ->
  saveUser svc
    (UserData.mk (VerifyOtpData.fullName (body req))
       (VerifyOtpData.email (body req))
       (nth 2 (split "#" (VerifyOtpData.hashOtp (body req))) "") CUSTOMER)
    (snd (findUserByEmail svc (VerifyOtpData.email (body req)) s))
    = (Ok user, s1) ->
  signAccessToken svc
    (TPayload.mk (NumberToString (User.id user)) (User.role user)) s1
    = (Ok accessToken, s2) ->
  saveRefreshToken svc user s2 = (Ok tokenRef, s3) ->
  signRefreshToken svc
    (RefreshPayload.mk (NumberToString (User.id user)) (User.role user)
       (NumberToString (RefreshToken.id tokenRef))) s3
    = (Ok refreshToken, s4) ->
  let w := run (verifyOtp svc rest req) (initial s now) in
  res w = mkResponse 200 (Some (JUser user))
            (session_cookies accessToken refreshToken) /\
  nexts w = [] /\ store w = s4.
Proof.
  intros Hacc H1 H2 H3 H4. revert Hacc.
  execute; intros Hacc; try discriminate.
  all: cbn [snd] in H1; rewrite ?H1 in *; try discriminate;
    repeat match goal with
           | H : (_, _) = (_, _) |- _ => injection H as ? ?; subst
           end;
    rewrite ?H2 in *; try discriminate;
    repeat match goal with
           | H : (_, _) = (_, _) |- _ => injection H as ? ?; subst
           end;
    rewrite ?H3 in *; try discriminate;
    repeat match goal with
           | H : (_, _) = (_, _) |- _ => injection H as ? ?; subst
           end;
    rewrite ?H4 in *; try discriminate;
    repeat match goal with
           | H : (_, _) = (_, _) |- _ => injection H as ? ?; subst
           end; auto.
Qed.

End Envelopes.

(* ================================================================== *)
(** ** When a handler answers *)

Section Answers.

Context {Store : Type}.
Variable svc : Services Store.
Variable rest : string -> JSNumber.

(** X16. [sendOtp] sends an envelope exactly when the request passed
    validation, the two passwords are equal, the e-mail address is not
    registered, and no service threw. *)
Theorem sendOtp_sends_iff (req : Request SendOtpData.t) (s : Store)
  (now : Z) :
  let w := run (sendOtp svc req) (initial s now) in
  (exists fullName email hashOtp otp,
     sent (res w) = Some (JSendOtp fullName email hashOtp otp)) <->
  validationResult req = [] /\
  SendOtpData.password (body req) = SendOtpData.confirmPassword (body req) /\
  fst (findUserByEmail svc (SendOtpData.email (body req)) s) = Ok None /\
  errors_thrown w = [].
Proof.
  execute; unfold errors_thrown; cbn; settle;
    split;
    try (intros (? & ? & ? & ? & ?); discriminate);
    try (intros (? & ? & ? & ?); congruence);
    try (intros _; repeat split; congruence);
    try (intros _; do 4 eexists; reflexivity).
Qed.

(** X17. [verifyOtp] answers with a user exactly when the OTP was
    accepted and no service threw afterwards. *)
Theorem verifyOtp_sends_iff (req : Request VerifyOtpData.t) (s : Store)
  (now : Z) :
  let w := run (verifyOtp svc rest req) (initial s now) in
  (exists user, sent (res w) = Some (JUser user)) <->
  otp_accepted w = true /\ errors_thrown w = [].
Proof.
  execute; unfold errors_thrown; cbn;
    split;
    try (intros (? & ?); discriminate);
    try (intros (? & ?); discriminate);
    try (intros _; split; reflexivity);
    try (intros _; eexists; reflexivity).
Qed.

(** X18. [login] answers with a user exactly when the request passed
    validation, a user was found for the address, [hashCompare] returned
    true for the submitted password and the password of that user, and no
    service threw. *)
Theorem login_sends_iff (req : Request LoginData.t) (s : Store) (now : Z) :
  let w := run (login svc req) (initial s now) in
  (exists user, sent (res w) = Some (JUser user)) <->
  validationResult req = [] /\
  (exists user,
     In (FindUserByEmailWithPassword (LoginData.email (body req))
           (Ok (Some user))) (trace w) /\
     In (HashCompare (LoginData.password (body req)) (User.password user)
           (Ok true)) (trace w)) /\
  errors_thrown w = [].
Proof.
  execute; unfold errors_thrown; cbn; tests; subst;
    split;
    try (intros (? & ?); discriminate);
    try (intros (? & ? & ?); discriminate);
    try (intros (_ & (? & ? & ?) & _); simpl in *; intuition congruence);
    try (intros (_ & (? & ? & ?) & _); simpl in *; intuition discriminate);
    try (intros _; repeat split; auto; eexists; simpl; eauto 8);
    try (intros _; eexists; reflexivity).
Qed.

(** X19. An envelope that does not hold exactly two [#] -- the empty
    string, one with a [#] inside a field -- is answered with
    [400 "Otp is invalid!"] at every time, before the clock is read and
    before any digest is computed: the lookup of the address is the only
    call. *)
Theorem malformed_envelope_is_invalid (req : Request VerifyOtpData.t)
  (s s' : Store) (now : Z) :
  validationResult req = [] ->
  findUserByEmail svc (VerifyOtpData.email (body req)) s = (Ok None, s') ->
  occurrences "#" (VerifyOtpData.hashOtp (body req)) <> 2%nat ->
  run (verifyOtp svc rest req) (initial s now)
  = mkWorld s' now fresh_response [OtpInvalid]
      [FindUserByEmail (VerifyOtpData.email (body req)) (Ok None)].
Proof.
  intros Hv Hf Ho.
  assert (H3 : length (split "#" (VerifyOtpData.hashOtp (body req)))
               <> 3%nat) by (rewrite split_length; lia).
  execute; settle.
Qed.

(** X20. The two failed logins that [next] cannot tell apart differ
    behind the response: for an address that is not known [login] stops
    after the lookup and never calls [hashCompare]; for a password that does
    not match it has called [hashCompare].  Neither goes on to the token
    service. *)
Theorem login_mismatch_calls (req : Request LoginData.t) (s s1 : Store)
  (now : Z) (found : option User.t) :
  validationResult req = [] ->
  findUserByEmailWithPassword svc (LoginData.email (body req)) s
    = (Ok found, s1) ->
  let w := run (login svc req) (initial s now) in
  let lookup :=
    FindUserByEmailWithPassword (LoginData.email (body req)) (Ok found) in
  match found with
  | None => trace w = [lookup] /\ store w = s1 /\ nexts w = [LoginMismatch]
  | Some user =>
      forall s2,
        hashCompare svc (LoginData.password (body req)) (User.password user)
          s1 = (Ok false, s2) ->
        trace w = [lookup;
                   HashCompare (LoginData.password (body req))
                     (User.password user) (Ok false)] /\
        store w = s2 /\ nexts w = [LoginMismatch]
  end.
Proof.
  intros Hv Hf. destruct found as [user|]; cbv zeta.
  - intros s2 Hc. execute; settle; auto.
  - execute; settle; auto.
Qed.

End Answers.

(* ================================================================== *)
(** ** The further theorems on the in-memory services *)

(** X1 at a send-OTP request without a name. *)
Lemma invalid_request_calls_nothing_witness :
  call_errors (CallSendOtp nameless_send) <> [] /\
  handle Memory.services Memory.rest (CallSendOtp nameless_send)
    (initial Memory.empty 1000)
  = mkWorld Memory.empty 1000
      (validation_response ["fullName is required!"]) [] [].
Proof.
  assert (H : call_errors (CallSendOtp nameless_send) <> [])
    by discriminate.
  split; [exact H|].
  exact (invalid_request_calls_nothing Memory.services Memory.rest
           (CallSendOtp nameless_send) Memory.empty 1000 H).
Defined.

(** X2 at a logout with the token repository down. *)
Lemma service_error_reaches_next_witness :
  let w := handle Memory.services Memory.rest (CallLogout (mkAuth "1" "1"))
             (initial all_down 1000) in
  In Memory.unavailable (errors_thrown w) /\ nexts w = [Memory.unavailable].
Proof.
  intros w.
  assert (H : In Memory.unavailable (errors_thrown w)) by (left; reflexivity).
  split; [exact H|].
  exact (proj2 (proj2 (service_error_reaches_next Memory.services Memory.rest
                         (CallLogout (mkAuth "1" "1")) all_down 1000
                         Memory.unavailable H))).
Defined.

(** X6 at Ann's registration with a user repository that does not save. *)
Lemma saveUser_failure_calls_next_twice_witness :
  let w := run (verifyOtp read_only_users Memory.rest ann_verify)
               (initial Memory.empty 601000) in
  In (SaveUser (UserData.mk "Ann" "ann@x.com" "$2b$10$p1" CUSTOMER)
        (Threw Memory.unavailable)) (trace w) /\
  nexts w = [Memory.unavailable; InternalServerError].
Proof.
  intros w.
  assert (H : In (SaveUser (UserData.mk "Ann" "ann@x.com" "$2b$10$p1" CUSTOMER)
                    (Threw Memory.unavailable)) (trace w))
    by (vm_compute; auto 8).
  split; [exact H|].
  exact (proj1 (saveUser_failure_calls_next_twice read_only_users Memory.rest
                  ann_verify Memory.empty 601000 _ _ H)).
Defined.

(** X7 at Ann's login without a key for access tokens. *)
Lemma signAccessToken_failure_saves_nothing_witness :
  let w := run_flow no_access_key Memory.rest (LoginFlow ann_login)
             (initial ann_registered 700000) in
  let e := Exception "secretOrPrivateKey must have a value" in
  In (SignAccessToken (TPayload.mk "1" CUSTOMER) (Threw e)) (trace w) /\
  refresh_records w = 0%nat /\ nexts w = [e].
Proof.
  intros w e.
  assert (H : In (SignAccessToken (TPayload.mk "1" CUSTOMER) (Threw e))
                 (trace w)) by (vm_compute; auto 8).
  split; [exact H|].
  destruct (signAccessToken_failure_saves_nothing no_access_key Memory.rest
              (LoginFlow ann_login) ann_registered 700000 _ _ H)
    as (H1 & H2 & _).
  split; assumption.
Defined.

(** X8 at Ann's login without a key for refresh tokens: her second
    record is saved, and no cookie is set. *)
Lemma signRefreshToken_failure_leaves_record_witness :
  let w := run_flow no_refresh_key Memory.rest (LoginFlow ann_login)
             (initial ann_registered 700000) in
  let e := Exception "secretOrPrivateKey must have a value" in
  In (SignRefreshToken (RefreshPayload.mk "1" CUSTOMER "2") (Threw e))
     (trace w) /\
  Memory.tokens (store w) = [RefreshToken.mk 1; RefreshToken.mk 2] /\
  nexts w = [e] /\ res w = fresh_response.
Proof.
  intros w e.
  assert (H : In (SignRefreshToken (RefreshPayload.mk "1" CUSTOMER "2")
                    (Threw e)) (trace w)) by (vm_compute; auto 8).
  split; [exact H|].
  split; [reflexivity|].
  exact (proj2 (signRefreshToken_failure_leaves_record no_refresh_key
                  Memory.rest (LoginFlow ann_login) ann_registered 700000
                  _ _ H)).
Defined.

(** X9 at a logout with the token repository down. *)
Lemma logout_failure_keeps_cookies_witness :
  deleteToken Memory.services (ToNumber Memory.rest "1") all_down
    = (Threw Memory.unavailable, all_down) /\
  cookies (res (run (logout Memory.services Memory.rest (mkAuth "1" "1"))
                    (initial all_down 1000))) = [].
Proof.
  split; [reflexivity|].
  destruct (logout_failure_keeps_cookies Memory.services Memory.rest
              (mkAuth "1" "1") all_down all_down 1000 Memory.unavailable
              eq_refl) as (_ & H & _).
  rewrite H. reflexivity.
Defined.

(** X11 at Ann's login. *)
Lemma login_issues_session_witness :
  res (run (login Memory.services ann_login) (initial ann_registered 700000))
  = mkResponse 200 (Some (JUser (without_password ann)))
      (session_cookies "access:1" "refresh:1:2").
Proof.
  exact (proj1 (login_issues_session Memory.services ann_login
                  ann_registered ann_registered ann_registered ann_registered
                  _ _ 700000 ann "access:1" "refresh:1:2" (RefreshToken.mk 2)
                  eq_refl eq_refl eq_refl eq_refl eq_refl eq_refl)).
Defined.

(** X12 at Ann's send at time 1000, handed back at time 601000. *)
Lemma send_then_verify_witness :
  time_value 1000 /\
  otp_accepted
    (run (verifyOtp Memory.services Memory.rest
            (hand_back "Ann" "ann@x.com"
               (VerifyOtpData.hashOtp (body ann_verify)) "482913"))
         (initial Memory.empty 601000)) = true.
Proof.
  assert (Ht : time_value 1000) by (unfold time_value, MAX_TIME; lia).
  split; [exact Ht|].
  apply (proj1 (proj2 (send_then_verify Memory.services Memory.rest ann_send
                  Memory.empty 1000 "Ann" "ann@x.com"
                  (VerifyOtpData.hashOtp (body ann_verify)) "482913" "Ann"
                  Memory.empty 601000 Ht eq_refl eq_refl))).
  vm_compute. split; [reflexivity | discriminate].
Defined.

(** X13 at Ben's envelope, which expired at 601000: with [$2b$10$abc]
    moved behind the expiry field it is accepted at time 1000000000000, and
    Ben is saved with the password [def]. *)
Lemma dots_do_not_bind_fields_witness :
  otp_accepted (run (verifyOtp Memory.services Memory.rest ben_verify)
                    (initial Memory.empty 1000)) = true /\
  otp_accepted (run (verifyOtp Memory.services Memory.rest ben_verify)
                    (initial Memory.empty 1000000000000)) = false /\
  otp_accepted (run (verifyOtp Memory.services Memory.rest ben_shifted)
                    (initial Memory.empty 1000000000000)) = true.
Proof.
  assert (H : otp_accepted
                (run (verifyOtp Memory.services Memory.rest ben_verify)
                     (initial Memory.empty 1000)) = true) by reflexivity.
  split; [exact H | split; [reflexivity|]].
  exact (proj1 (dots_do_not_bind_fields Memory.services Memory.rest
                  ben_verify Memory.empty Memory.empty 1000 1000000000000
                  "hmac:482913.ben@x.com.601000.$2b$10$abc.def" "601000"
                  "$2b$10$abc" "def" H eq_refl eq_refl eq_refl)).
Defined.

(** X14 at Ann's registration. *)
Lemma digest_only_for_live_envelope_witness :
  let w := run (verifyOtp Memory.services Memory.rest ann_verify)
               (initial Memory.empty 601000) in
  In (HashDataUsingCrypto (prepared ann_material) (Ok ann_digest)) (trace w)
  /\ length (split "#" (VerifyOtpData.hashOtp (body ann_verify))) = 3%nat.
Proof.
  intros w.
  assert (H : In (HashDataUsingCrypto (prepared ann_material) (Ok ann_digest))
                 (trace w)) by (vm_compute; auto 8).
  split; [exact H|].
  destruct (digest_only_for_live_envelope Memory.services Memory.rest
              ann_verify Memory.empty 601000 _ _ H) as (_ & _ & H3 & _).
  exact H3.
Defined.

(** X15 at Ann's registration. *)
Lemma registration_issues_session_witness :
  res (run (verifyOtp Memory.services Memory.rest ann_verify)
           (initial Memory.empty 601000))
  = mkResponse 200 (Some (JUser ann))
      (session_cookies "access:1" "refresh:1:1").
Proof.
  exact (proj1 (registration_issues_session Memory.services Memory.rest
                  ann_verify Memory.empty _ _ _ _ 601000 ann
                  "access:1" "refresh:1:1" (RefreshToken.mk 1)
                  eq_refl eq_refl eq_refl eq_refl eq_refl)).
Defined.

(** X19 at the empty envelope. *)
Lemma malformed_envelope_is_invalid_witness :
  nexts (run (verifyOtp Memory.services Memory.rest
                (hand_back "Ann" "ann@x.com" "" "482913"))
             (initial Memory.empty 1000)) = [OtpInvalid].
Proof.
  rewrite (malformed_envelope_is_invalid Memory.services Memory.rest
             (hand_back "Ann" "ann@x.com" "" "482913")
             Memory.empty Memory.empty 1000 eq_refl eq_refl).
  - reflexivity.
  - discriminate.
Defined.

(** X20 at a login for Bob, who is not registered, and at a login for
    Ann with the password [p2]. *)
Lemma login_mismatch_calls_witness :
  trace (run (login Memory.services
                (mkRequest [] (LoginData.mk "bob@x.com" "p1")))
             (initial ann_registered 700000))
  = [FindUserByEmailWithPassword "bob@x.com" (Ok None)] /\
  trace (run (login Memory.services
                (mkRequest [] (LoginData.mk "ann@x.com" "p2")))
             (initial ann_registered 700000))
  = [FindUserByEmailWithPassword "ann@x.com" (Ok (Some ann));
     HashCompare "p2" (Some "$2b$10$p1") (Ok false)].
Proof.
  split.
  - exact (proj1 (login_mismatch_calls Memory.services
                    (mkRequest [] (LoginData.mk "bob@x.com" "p1"))
                    ann_registered ann_registered 700000 None
                    eq_refl eq_refl)).
  - exact (proj1 (login_mismatch_calls Memory.services
                    (mkRequest [] (LoginData.mk "ann@x.com" "p2"))
                    ann_registered ann_registered 700000 (Some ann)
                    eq_refl eq_refl ann_registered eq_refl)).
Defined.
